(** * Entity lifecycle rules of the education-management backend

    A shallow embedding of the Sequelize model methods of
    [backend/models/Payment.js], [backend/models/Session.js], the
    Attendance model and the global [errorHandler] middleware, together with
    the properties their specification states about them.

    Conventions of the embedding:
    - a JavaScript [Date] is its time value, an integer number of
      milliseconds since the epoch ([Z]); the local time zone is UTC;
    - every [new Date()] is one reading of the system clock, threaded through
      ExtLib's state monad, so two readings inside one method may differ;
    - [DECIMAL(10,2)] amounts are integers counting hundredths, and
      arithmetic on time values is exact;
    - a nullable column is an [option]; [this] is passed in and the mutated
      record is returned. *)

From Stdlib Require Import ZArith List String Ascii Bool Lia DecimalString.
From ExtLib Require Import Structures.Monad Structures.MonadState.
From ExtLib Require Import Data.Monads.StateMonad Data.Monads.OptionMonad.
Import ListNotations.
Import MonadNotation.
Local Open Scope monad_scope.
Local Open Scope string_scope.
Local Open Scope Z_scope.

(** ** The JavaScript runtime pieces the models rely on *)

Module JS.

(** The system clock: [timeline k] is what the k-th [new Date()] of the run
    returns and [taken] counts the readings made so far. *)
Record Clock : Type := mkClock { timeline : nat -> Z; taken : nat }.

Definition IO : Type -> Type := state Clock.

(** [new Date()] *)
Definition newDate : IO Z :=
  c <- get ;;
  put (mkClock (timeline c) (S (taken c))) ;;
  ret (timeline c (taken c)).

Definition run {A : Type} (m : IO A) (c : Clock) : A := fst (runState m c).
Definition after {A : Type} (m : IO A) (c : Clock) : Clock := snd (runState m c).

(** The k-th reading counted from the present state of the clock. *)
Definition reading (c : Clock) (k : nat) : Z := timeline c (taken c + k)%nat.

(** Truthiness of a string-or-null value: [null] and [''] are falsy. *)
Definition truthy (v : option string) : bool :=
  match v with
  | Some s => negb (String.eqb s "")
  | None => false
  end.

(** [Math.ceil(a / b)] for an integer [a] and a positive integer [b]. *)
Definition ceilDiv (a b : Z) : Z := - ((- a) / b).

(** [String(n)] for an integer. *)
Definition toString (n : Z) : string := NilZero.string_of_int (Z.to_int n).

Fixpoint repeatChar (k : nat) (c : ascii) : string :=
  match k with
  | O => EmptyString
  | S k' => String c (repeatChar k' c)
  end.

(** [s.padStart(n, '0')]: pads on the left up to length [n], never cuts. *)
Definition padStart (n : nat) (s : string) : string :=
  repeatChar (n - String.length s) "0"%char ++ s.

(** *** Calendar arithmetic of [Date] (ECMA-262, "Date objects"), in UTC *)

Definition msPerDay : Z := 86400000.

Definition Day (t : Z) : Z := t / msPerDay.

Definition DayFromYear (y : Z) : Z :=
  365 * (y - 1970) + (y - 1969) / 4 - (y - 1901) / 100 + (y - 1601) / 400.

Definition isLeap (y : Z) : bool :=
  (y mod 4 =? 0) && (negb (y mod 100 =? 0) || (y mod 400 =? 0)).

(** The largest [y] with [DayFromYear y <= Day t]: an estimate from the
    mean year length, moved by one year where it is off. *)
Definition YearFromTime (t : Z) : Z :=
  let d := Day t in
  let e := 1970 + (d * 400) / 146097 in
  if d <? DayFromYear e then e - 1
  else if DayFromYear (e + 1) <=? d then e + 1
  else e.

Definition DayWithinYear (t : Z) : Z := Day t - DayFromYear (YearFromTime t).

(** Number of days of the year that precede month [m] (0 = January). *)
Definition daysBeforeMonth (leap : bool) (m : Z) : Z :=
  let l := if leap then 1 else 0 in
  if m <=? 0 then 0
  else if m =? 1 then 31
  else if m =? 2 then 59 + l
  else if m =? 3 then 90 + l
  else if m =? 4 then 120 + l
  else if m =? 5 then 151 + l
  else if m =? 6 then 181 + l
  else if m =? 7 then 212 + l
  else if m =? 8 then 243 + l
  else if m =? 9 then 273 + l
  else if m =? 10 then 304 + l
  else 334 + l.

Definition MonthFromTime (t : Z) : Z :=
  let leap := isLeap (YearFromTime t) in
  let d := DayWithinYear t in
  if d <? daysBeforeMonth leap 1 then 0
  else if d <? daysBeforeMonth leap 2 then 1
  else if d <? daysBeforeMonth leap 3 then 2
  else if d <? daysBeforeMonth leap 4 then 3
  else if d <? daysBeforeMonth leap 5 then 4
  else if d <? daysBeforeMonth leap 6 then 5
  else if d <? daysBeforeMonth leap 7 then 6
  else if d <? daysBeforeMonth leap 8 then 7
  else if d <? daysBeforeMonth leap 9 then 8
  else if d <? daysBeforeMonth leap 10 then 9
  else if d <? daysBeforeMonth leap 11 then 10
  else 11.

Definition MakeDay (year month date : Z) : Z :=
  let ym := year + month / 12 in
  let mn := month mod 12 in
  DayFromYear ym + daysBeforeMonth (isLeap ym) mn + date - 1.

(** [date.getFullYear()] and [date.getMonth()] *)
Definition getFullYear (t : Z) : Z := YearFromTime t.
Definition getMonth (t : Z) : Z := MonthFromTime t.

(** [new Date(year, month, day)]: midnight that opens the given day; a
    year from 0 to 99 stands for 1900 + year. *)
Definition newDateYMD (year month day : Z) : Z :=
  let yr := if (0 <=? year) && (year <=? 99) then 1900 + year else year in
  MakeDay yr month day * msPerDay.

End JS.

(** ** [backend/models/Payment.js] *)

Module Payment.

(** A row of [payments]; only the columns the lifecycle rules touch.
    [status], [paymentMethod] and [environment] are the ENUM strings. *)
Record t : Type := mk {
  amount : Z;
  paymentMethod : string;
  status : string;
  transactionId : option string;
  gatewayResponse : option string;
  dueDate : option Z;
  paidAt : option Z;
  refundedAt : option Z;
  refundAmount : option Z;
  refundReason : option string;
  invoiceNumber : option string;
  environment : string;
  createdAt : option Z
}.

Definition isCompleted (this : t) : bool := (status this =? "completed")%string.
Definition isPending (this : t) : bool := (status this =? "pending")%string.
Definition isFailed (this : t) : bool := (status this =? "failed")%string.
Definition isRefunded (this : t) : bool := (status this =? "refunded")%string.

(** [new Date(v)] for a stored date or [null]; [new Date(null)] is the epoch. *)
Definition toDate (v : option Z) : Z :=
  match v with
  | Some d => d
  | None => 0
  end.

Definition isOverdue (this : t) : JS.IO bool :=
  match dueDate this with
  | None => ret false
  | Some _ =>
      if isCompleted this then ret false
      else
        now <- JS.newDate ;;
        ret (now >? toDate (dueDate this))%Z
  end.

Definition getDaysOverdue (this : t) : JS.IO Z :=
  overdue <- isOverdue this ;;
  if negb overdue then ret 0%Z
  else
    now <- JS.newDate ;;
    let due := toDate (dueDate this) in
    ret (JS.ceilDiv (now - due) (1000 * 60 * 60 * 24)).

Definition markAsCompleted (transactionId' gatewayResponse' : option string)
    (this : t) : JS.IO t :=
  now <- JS.newDate ;;
  ret (mk (amount this) (paymentMethod this) "completed"
          (if JS.truthy transactionId' then transactionId' else transactionId this)
          (match gatewayResponse' with
           | Some _ => gatewayResponse'
           | None => gatewayResponse this
           end)
          (dueDate this) (Some now) (refundedAt this) (refundAmount this)
          (refundReason this) (invoiceNumber this) (environment this)
          (createdAt this)).

Definition markAsFailed (gatewayResponse' : option string) (this : t) : t :=
  mk (amount this) (paymentMethod this) "failed" (transactionId this)
     (match gatewayResponse' with
      | Some _ => gatewayResponse'
      | None => gatewayResponse this
      end)
     (dueDate this) (paidAt this) (refundedAt this) (refundAmount this)
     (refundReason this) (invoiceNumber this) (environment this)
     (createdAt this).

Definition refund (amount' : Z) (reason : option string) (this : t) : JS.IO t :=
  now <- JS.newDate ;;
  ret (mk (amount this) (paymentMethod this) "refunded" (transactionId this)
          (gatewayResponse this) (dueDate this) (paidAt this) (Some now)
          (Some amount') reason (invoiceNumber this) (environment this)
          (createdAt this)).

(** [n] successive calls of [markAsCompleted], the k-th with arguments [args k]. *)
Fixpoint markAsCompletedTimes (n : nat)
    (args : nat -> option string * option string) (this : t) : JS.IO t :=
  match n with
  | O => ret this
  | S n' =>
      p <- markAsCompletedTimes n' args this ;;
      markAsCompleted (fst (args n')) (snd (args n')) p
  end.

(** The hook's dev-mode block ([process.env.ENVIRONMENT === 'dev']). *)
Definition devOverride (env : option string) (payment : t) : JS.IO t :=
  match env with
  | Some e =>
      if (e =? "dev")%string then
        now <- JS.newDate ;;
        ret (mk 0 "dev_mode" "completed" (transactionId payment)
                (gatewayResponse payment) (dueDate payment) (Some now)
                (refundedAt payment) (refundAmount payment)
                (refundReason payment) (invoiceNumber payment) "dev"
                (createdAt payment))
      else ret payment
  | None => ret payment
  end.

(** [Payment.count({ where: { createdAt: { [Op.between]: [lo, hi] } } })]
    over the rows of the table; SQL's BETWEEN includes both bounds. *)
Definition countCreatedBetween (lo hi : Z) (table : list t) : Z :=
  Z.of_nat (List.length
    (filter (fun row =>
               match createdAt row with
               | Some c => (lo <=? c) && (c <=? hi)
               | None => false
               end) table)).

Definition setInvoiceNumber (payment : t) (inv : string) : t :=
  mk (amount payment) (paymentMethod payment) (status payment)
     (transactionId payment) (gatewayResponse payment) (dueDate payment)
     (paidAt payment) (refundedAt payment) (refundAmount payment)
     (refundReason payment) (Some inv) (environment payment)
     (createdAt payment).

(** The hook's invoice block. *)
Definition assignInvoiceNumber (table : list t) (payment : t) : JS.IO t :=
  if negb (JS.truthy (invoiceNumber payment)) then
    date <- JS.newDate ;;
    let year := JS.getFullYear date in
    let month := JS.padStart 2 (JS.toString (JS.getMonth date + 1)) in
    let count :=
      countCreatedBetween
        (JS.newDateYMD (JS.getFullYear date) (JS.getMonth date) 1)
        (JS.newDateYMD (JS.getFullYear date) (JS.getMonth date + 1) 0)
        table in
    ret (setInvoiceNumber payment
           ("INV-" ++ JS.toString year ++ month ++ "-"
              ++ JS.padStart 4 (JS.toString (count + 1))))
  else ret payment.

(** [hooks.beforeCreate]; [env] is [process.env.ENVIRONMENT] and [table]
    the rows already stored. *)
Definition beforeCreate (env : option string) (table : list t)
    (payment : t) : JS.IO t :=
  payment <- devOverride env payment ;;
  assignInvoiceNumber table payment.

Definition setCreatedAt (payment : t) (now : Z) : t :=
  mk (amount payment) (paymentMethod payment) (status payment)
     (transactionId payment) (gatewayResponse payment) (dueDate payment)
     (paidAt payment) (refundedAt payment) (refundAmount payment)
     (refundReason payment) (invoiceNumber payment) (environment payment)
     (match createdAt payment with
      | Some c => Some c
      | None => Some now
      end).

(** Whether a stored row already carries this invoice number (the column
    is UNIQUE; NULLs never collide). *)
Definition invoiceTaken (table : list t) (payment : t) : bool :=
  match invoiceNumber payment with
  | Some inv =>
      existsb (fun row =>
                 match invoiceNumber row with
                 | Some inv' => (inv =? inv')%string
                 | None => false
                 end) table
  | None => false
  end.

(** [Payment.create(values)] as the ORM runs it: the creation time is read
    from the clock, the hook runs, the row is stamped and inserted; the
    insert is refused when the invoice number is already taken.  Returns
    the stored row and the new table, or the name of the error. *)
Definition create (env : option string) (table : list t) (values : t)
    : JS.IO (string + t * list t) :=
  now <- JS.newDate ;;
  payment <- beforeCreate env table values ;;
  let row := setCreatedAt payment now in
  if invoiceTaken table row then ret (inl "SequelizeUniqueConstraintError")
  else ret (inr (row, (table ++ [row])%list)).

End Payment.

(** ** [backend/models/Session.js] *)

Module Session.

Record t : Type := mk {
  status : string;
  maxStudents : Z;
  currentStudents : Z
}.

Definition isFull (this : t) : bool := currentStudents this >=? maxStudents this.

Definition canJoin (this : t) : bool :=
  (status this =? "scheduled")%string && negb (isFull this).

End Session.

(** ** The Attendance model *)

Module Attendance.

Record t : Type := mk {
  status : string;
  checkInTime : option Z;
  checkOutTime : option Z;
  duration : option Z;
  markedBy : option string;
  markedAt : option Z;
  reason : option string
}.

Definition isPresent (this : t) : bool := (status this =? "present")%string.
Definition isAbsent (this : t) : bool := (status this =? "absent")%string.
Definition isLate (this : t) : bool := (status this =? "late")%string.

Definition markPresent (markedBy' : option string) (this : t) : JS.IO t :=
  checkIn <- JS.newDate ;;
  marked <- JS.newDate ;;
  ret (mk "present" (Some checkIn) (checkOutTime this) (duration this)
          markedBy' (Some marked) (reason this)).

(** [reason] defaults to [null] when the argument is left out. *)
Definition markAbsent (markedBy' : option string) (reason' : option string)
    (this : t) : JS.IO t :=
  marked <- JS.newDate ;;
  ret (mk "absent" (checkInTime this) (checkOutTime this) (duration this)
          markedBy' (Some marked) reason').

Definition markLate (markedBy' : option string) (this : t) : JS.IO t :=
  checkIn <- JS.newDate ;;
  marked <- JS.newDate ;;
  ret (mk "late" (Some checkIn) (checkOutTime this) (duration this)
          markedBy' (Some marked) (reason this)).

End Attendance.

(** ** The global error-handling middleware ([errorHandler]) *)

Module ErrorHandler.

(** An item of a Sequelize error's [errors] array. *)
Record ErrorItem : Type := mkItem {
  path : string;
  itemMessage : string;
  value : string
}.

(** What the handler sends under [errors]: the mapped
    [{field, message, value}] objects. *)
Record FieldError : Type := mkFieldError {
  field : string;
  fieldMessage : string;
  fieldValue : string
}.

(** The thrown error, by the properties the handler reads; an absent
    property is [None]. *)
Record Err : Type := mkErr {
  name : string;
  message : option string;
  stack : option string;
  code : option string;
  status : option Z;
  ownStatusCode : option Z;
  errors : option (list ErrorItem);
  fields : option (list string)
}.

(** An [errors] property is either carried over as it was thrown or
    rebuilt by the handler. *)
Inductive ErrorsProp : Type :=
| Thrown (items : list ErrorItem)
| Mapped (items : list FieldError).

(** The local [error] object. *)
Record Translated : Type := mkTranslated {
  statusCode : option Z;
  translatedMessage : option string;
  translatedErrors : option ErrorsProp;
  translatedField : option string
}.

Record Req : Type := mkReq {
  url : string;
  method : string;
  originalUrl : string
}.

Record Body : Type := mkBody {
  success : bool;
  bodyMessage : string;
  bodyStack : option string;
  details : option Translated;
  bodyErrors : option ErrorsProp;
  timestamp : Z;
  bodyPath : string;
  bodyMethod : string
}.

(** [res.status(code).json(body)] *)
Record Response : Type := mkResponse {
  httpStatus : Z;
  json : Body
}.

(** [let error = { ...err }; error.message = err.message;] *)
Definition copyOf (err : Err) : Translated :=
  mkTranslated (ownStatusCode err) (message err)
               (option_map Thrown (errors err)) None.

(** [Object.values(err.errors).map(val => val.message).join(', ')] *)
Definition joinedMessages (items : list ErrorItem) : string :=
  String.concat ", " (map itemMessage items).

Definition mapItems (items : list ErrorItem) : list FieldError :=
  map (fun val => mkFieldError (path val) (itemMessage val) (value val)) items.

Definition codeIs (err : Err) (c : string) : bool :=
  match code err with
  | Some c' => (c' =? c)%string
  | None => false
  end.

Definition statusIs (err : Err) (n : Z) : bool :=
  match status err with
  | Some n' => n' =? n
  | None => false
  end.

(** The chain of [if] blocks, each replacing [error] when it applies.
    [None] is the TypeError of reading the items of an absent [errors]. *)
Definition translate (err : Err) : option Translated :=
  let error := copyOf err in
  error <-
    (if (name err =? "SequelizeValidationError")%string then
       match errors err with
       | Some items =>
           Some (mkTranslated (Some 400)
                   (Some ("Validation Error: " ++ joinedMessages items))
                   (Some (Mapped (mapItems items))) None)
       | None => None
       end
     else Some error) ;;
  error <-
    (if (name err =? "SequelizeUniqueConstraintError")%string then
       match errors err with
       | Some items =>
           Some (mkTranslated (Some 409)
                   (Some ("Duplicate Error: " ++ joinedMessages items))
                   (Some (Mapped (mapItems items))) None)
       | None => None
       end
     else Some error) ;;
  let error :=
    if (name err =? "SequelizeForeignKeyConstraintError")%string then
      mkTranslated (Some 400) (Some "Referenced record does not exist") None
        (match fields err with
         | Some (k :: _) => Some k
         | Some [] => None
         | None => Some "unknown"
         end)
    else error in
  let error :=
    if (name err =? "JsonWebTokenError")%string then
      mkTranslated (Some 401) (Some "Invalid token") None None
    else error in
  let error :=
    if (name err =? "TokenExpiredError")%string then
      mkTranslated (Some 401) (Some "Token expired") None None
    else error in
  let error :=
    if codeIs err "LIMIT_FILE_SIZE" then
      mkTranslated (Some 400) (Some "File size too large") None None
    else error in
  let error :=
    if codeIs err "LIMIT_UNEXPECTED_FILE" then
      mkTranslated (Some 400) (Some "Unexpected file field") None None
    else error in
  let error :=
    if statusIs err 429 then
      mkTranslated (Some 429)
        (Some "Too many requests, please try again later") None None
    else error in
  let error :=
    if (name err =? "CastError")%string then
      mkTranslated (Some 400) (Some "Invalid ID format") None None
    else error in
  Some error.

(** [error.statusCode || 500] *)
Definition statusOr500 (error : Translated) : Z :=
  match statusCode error with
  | Some n => if n =? 0 then 500 else n
  | None => 500
  end.

(** [error.message || 'Internal Server Error'] *)
Definition messageOrDefault (error : Translated) : string :=
  match translatedMessage error with
  | Some m => if (m =? "")%string then "Internal Server Error" else m
  | None => "Internal Server Error"
  end.

(** [errorHandler(err, req, res, next)]; [nodeEnv] is
    [process.env.NODE_ENV].  The first clock reading stamps the console
    log entry, the second the response.  [None]: the handler threw and
    sent nothing. *)
Definition errorHandler (nodeEnv : option string) (err : Err) (req : Req)
    : JS.IO (option Response) :=
  logged <- JS.newDate ;;
  match translate err with
  | None => ret None
  | Some error =>
      let statusCode := statusOr500 error in
      let message := messageOrDefault error in
      let isDevelopment :=
        match nodeEnv with
        | Some e => (e =? "development")%string
        | None => false
        end in
      stamp <- JS.newDate ;;
      ret (Some (mkResponse statusCode
                   (mkBody false message
                      (if isDevelopment then stack err else None)
                      (if isDevelopment then Some error else None)
                      (translatedErrors error)
                      stamp (originalUrl req) (method req))))
  end.

End ErrorHandler.

(** ** The specification's vocabulary *)

Module Spec.

(** "refundAmount <= amount", for a record that carries a refund amount. *)
Definition refundWithinAmount (p : Payment.t) : Prop :=
  forall r, Payment.refundAmount p = Some r -> r <= Payment.amount p.

(** "a refunded payment must have refundAmount <= amount" *)
Definition refundedInvariant (p : Payment.t) : Prop :=
  Payment.status p = "refunded" -> refundWithinAmount p.

(** The HTTP status of an error as the specification words it, by the
    error's name alone: 400 / 409 / 400 for the three storage errors, 401
    for the JWT errors, 500 for all others. *)
Definition statusByName (name : string) : Z :=
  if (name =? "SequelizeValidationError")%string then 400
  else if (name =? "SequelizeUniqueConstraintError")%string then 409
  else if (name =? "SequelizeForeignKeyConstraintError")%string then 400
  else if (name =? "JsonWebTokenError")%string then 401
  else if (name =? "TokenExpiredError")%string then 401
  else 500.

(** The HTTP status the handler sends, the checks that come later in its
    chain taking precedence: a ['CastError'], a rate-limit status, a
    Multer code, then the names above, and for any other error its own
    non-zero [statusCode] when it has one, 500 when it has none. *)
Definition statusOf (err : ErrorHandler.Err) : Z :=
  if (ErrorHandler.name err =? "CastError")%string then 400
  else if ErrorHandler.statusIs err 429 then 429
  else if ErrorHandler.codeIs err "LIMIT_UNEXPECTED_FILE" then 400
  else if ErrorHandler.codeIs err "LIMIT_FILE_SIZE" then 400
  else if (ErrorHandler.name err =? "TokenExpiredError")%string then 401
  else if (ErrorHandler.name err =? "JsonWebTokenError")%string then 401
  else if (ErrorHandler.name err =? "SequelizeForeignKeyConstraintError")%string
  then 400
  else if (ErrorHandler.name err =? "SequelizeUniqueConstraintError")%string
  then 409
  else if (ErrorHandler.name err =? "SequelizeValidationError")%string then 400
  else match ErrorHandler.ownStatusCode err with
       | Some n => if n =? 0 then 500 else n
       | None => 500
       end.

(** The handler reads the items of [errors] for these two names only. *)
Definition readsErrors (err : ErrorHandler.Err) : bool :=
  (ErrorHandler.name err =? "SequelizeValidationError")%string
  || (ErrorHandler.name err =? "SequelizeUniqueConstraintError")%string.

End Spec.

(** ** Concrete records and clocks used in the examples *)

Module Samples.

(** 2024-01-31T10:00:00Z, the last day of a month. *)
Definition jan31_10h : Z := 1706695200000.

(** 2024-01-30T10:00:00Z *)
Definition jan30_10h : Z := 1706608800000.

(** A clock that starts at [t] and advances one hour per reading. *)
Definition hourly (t : Z) : JS.Clock :=
  JS.mkClock (fun k => t + 3600000 * Z.of_nat k) 0.

(** A clock whose readings all fall in the same millisecond [t]. *)
Definition frozen (t : Z) : JS.Clock := JS.mkClock (fun _ => t) 0.

(** A pending payment of 100.00 with the given due date and no invoice
    number. *)
Definition pending (due : option Z) : Payment.t :=
  Payment.mk 10000 "credit_card" "pending" None None due None None None
             None None "prod" None.

Definition completed (due : option Z) : Payment.t :=
  Payment.mk 10000 "credit_card" "completed" None None due None None None
             None None "prod" None.

Definition castError : ErrorHandler.Err :=
  ErrorHandler.mkErr "CastError" (Some "Cast to ObjectId failed") None None
                     None None None None.

Definition rateLimited : ErrorHandler.Err :=
  ErrorHandler.mkErr "Error" (Some "Too many requests") None None (Some 429)
                     None None None.

Definition notFound : ErrorHandler.Err :=
  ErrorHandler.mkErr "Error" (Some "Session not found") None None None
                     (Some 404) None None.

Definition duplicate : ErrorHandler.Err :=
  ErrorHandler.mkErr "SequelizeUniqueConstraintError"
    (Some "Validation error") None None None None
    (Some [ErrorHandler.mkItem "sessionId" "sessionId must be unique" "s1"])
    None.

Definition req : ErrorHandler.Req :=
  ErrorHandler.mkReq "/api/attendance" "POST" "/api/attendance".

End Samples.

(** * The rest of the models and of their callers *)

From Stdlib Require Import Sorting.Sorted Sorting.Permutation.

(** ** Query results as the ORM returns them *)

Module Orm.

(** [order: [[column, 'ASC']]] on a numeric or date column [key]: the rows
    by increasing key.  SQL leaves the order of rows with equal keys open;
    this sort keeps them as they were. *)
Fixpoint insertBy {A : Type} (key : A -> Z) (x : A) (l : list A) : list A :=
  match l with
  | [] => [x]
  | y :: l' => if key x <=? key y then x :: y :: l' else y :: insertBy key x l'
  end.

Fixpoint orderAsc {A : Type} (key : A -> Z) (l : list A) : list A :=
  match l with
  | [] => []
  | x :: l' => insertBy key x (orderAsc key l')
  end.

(** [order: [[column, 'DESC']]] *)
Definition orderDesc {A : Type} (key : A -> Z) (l : list A) : list A :=
  orderAsc (fun x => - key x) l.

(** A comparison of a nullable date column with a bound; NULL never
    satisfies one. *)
Definition dateIs (test : Z -> bool) (column : option Z) : bool :=
  match column with
  | Some v => test v
  | None => false
  end.

End Orm.

(** ** [Payment]'s class methods *)

Module PaymentFinders.

(** A stored payment with the owner column the finders filter on. *)
Record Row : Type := mkRow {
  studentId : string;
  payment : Payment.t
}.

Definition dueKey (r : Row) : Z := Payment.toDate (Payment.dueDate (payment r)).
Definition createdKey (r : Row) : Z :=
  Payment.toDate (Payment.createdAt (payment r)).

(** [Payment.findOverdue()]: pending rows due before now, earliest due
    first (the joined student columns are left out). *)
Definition findOverdue (table : list Row) : JS.IO (list Row) :=
  now <- JS.newDate ;;
  ret (Orm.orderAsc dueKey
         (filter (fun r =>
                    (Payment.status (payment r) =? "pending")%string
                    && Orm.dateIs (fun d => d <? now)
                                  (Payment.dueDate (payment r)))
                 table)).

(** The [options] argument of [findByStudent]. *)
Record Options : Type := mkOptions {
  status : option string;
  startDate : option Z;
  endDate : option Z
}.

(** The [createdAt] condition of the [where] object. *)
Record Range : Type := mkRange {
  gte : option Z;
  lte : option Z
}.

Record Where : Type := mkWhere {
  whereStudentId : string;
  whereStatus : option string;
  whereCreatedAt : option Range
}.

(** The [where] object [findByStudent] builds, [if] by [if]. *)
Definition buildWhere (studentId' : string) (options : Options) : Where :=
  let where_ := mkWhere studentId' None None in
  let where_ :=
    if JS.truthy (status options)
    then mkWhere (whereStudentId where_) (status options) (whereCreatedAt where_)
    else where_ in
  let where_ :=
    match startDate options with
    | Some start =>
        mkWhere (whereStudentId where_) (whereStatus where_)
                (Some (mkRange (Some start) None))
    | None => where_
    end in
  match endDate options with
  | Some end_ =>
      mkWhere (whereStudentId where_) (whereStatus where_)
              (Some (mkRange
                       match whereCreatedAt where_ with
                       | Some range => gte range
                       | None => None
                       end
                       (Some end_)))
  | None => where_
  end.

(** Whether a row satisfies a [where] object. *)
Definition satisfies (where_ : Where) (r : Row) : bool :=
  (studentId r =? whereStudentId where_)%string
  && match whereStatus where_ with
     | Some s => (Payment.status (payment r) =? s)%string
     | None => true
     end
  && match whereCreatedAt where_ with
     | Some range =>
         match gte range with
         | Some lo => Orm.dateIs (fun c => lo <=? c) (Payment.createdAt (payment r))
         | None => true
         end
         && match lte range with
            | Some hi => Orm.dateIs (fun c => c <=? hi) (Payment.createdAt (payment r))
            | None => true
            end
     | None => true
     end.

(** [Payment.findByStudent(studentId, options)]: newest first (the joined
    session columns are left out). *)
Definition findByStudent (studentId' : string) (options : Options)
    (table : list Row) : list Row :=
  Orm.orderDesc createdKey (filter (satisfies (buildWhere studentId' options)) table).

End PaymentFinders.

(** ** The shape of invoice numbers *)

Module Invoice.

(** The template literal of the hook:
    [`INV-${year}${month}-${String(seq).padStart(4, '0')}`] with [month] the
    two-digit form of [getMonth() + 1]. *)
Definition text (year month0 seq : Z) : string :=
  "INV-" ++ JS.toString year ++ JS.padStart 2 (JS.toString (month0 + 1))
    ++ "-" ++ JS.padStart 4 (JS.toString seq).

Definition isDigit (ch : ascii) : bool :=
  (48 <=? nat_of_ascii ch)%nat && (nat_of_ascii ch <=? 57)%nat.

Fixpoint allDigits (s : string) : bool :=
  match s with
  | EmptyString => true
  | String ch s' => isDigit ch && allDigits s'
  end.

(** The pattern INV-YYYYMM-NNNN: fifteen characters, the prefix, six
    digits, a dash, four digits. *)
Definition matchesFormat (s : string) : bool :=
  (String.length s =? 15)%nat
  && String.prefix "INV-" s
  && allDigits (String.substring 4 6 s)
  && (String.substring 10 1 s =? "-")%string
  && allDigits (String.substring 11 4 s).

(** The reading of the clock the hook's invoice block uses when the hook
    starts at [c]: the dev-mode block takes one reading before it. *)
Definition hookDate (env : option string) (c : JS.Clock) : Z :=
  match env with
  | Some e => if (e =? "dev")%string then JS.reading c 1 else JS.reading c 0
  | None => JS.reading c 0
  end.

(** A string of exactly [n] decimal digits. *)
Definition digitsOfLength (n : nat) (s : string) : bool :=
  (String.length s =? n)%nat && allDigits s.

(** [f] holds on the [n] integers from [lo] on. *)
Fixpoint forallFrom (f : Z -> bool) (lo : Z) (n : nat) : bool :=
  match n with
  | O => true
  | S n' => f lo && forallFrom f (lo + 1) n'
  end.

End Invoice.

(** ** The rest of [backend/models/Session.js] *)

Module SessionSchedule.

(** A session with the scheduling columns next to the capacity columns of
    [Session.t]. *)
Record t : Type := mk {
  session : Session.t;
  tutorId : string;
  startTime : option Z;
  endTime : option Z;
  duration : Z;
  isRecurring : bool;
  recurringEndDate : option Z
}.

(** What [new Date(v)] holds for an arbitrary [v]: a time value, or
    [None] for an Invalid Date, whose time value is NaN. *)
Definition DateValue : Type := option Z.

(** [a <= b] on two dates: false as soon as one of them is invalid. *)
Definition dateLe (a b : DateValue) : bool :=
  match a, b with
  | Some x, Some y => x <=? y
  | _, _ => false
  end.

(** [validate.isAfterNow(value)] on [startTime], [value] being what
    [new Date(value)] holds: the message of the error it throws, or [None]
    when it lets the value pass. *)
Definition isAfterNow (value : DateValue) : JS.IO (option string) :=
  now <- JS.newDate ;;
  ret (if dateLe value (Some now)
       then Some "Start time must be in the future" else None).

(** [validate.isAfterStart(value)] on [endTime].  [thisStartTime] is the
    [this.startTime] of the instance under validation: [None] when it is
    falsy, else what [new Date(this.startTime)] holds. *)
Definition isAfterStart (thisStartTime : option DateValue) (value : DateValue)
    : option string :=
  match thisStartTime with
  | Some start =>
      if dateLe value start
      then Some "End time must be after start time" else None
  | None => None
  end.

Definition isRecurringActive (this : t) : JS.IO bool :=
  if negb (isRecurring this) then ret false
  else
    match recurringEndDate this with
    | None => ret false
    | Some end_ =>
        now <- JS.newDate ;;
        ret (now <=? end_)
    end.

Definition startKey (s : t) : Z := Payment.toDate (startTime s).

(** [Session.findUpcoming()] *)
Definition findUpcoming (table : list t) : JS.IO (list t) :=
  now <- JS.newDate ;;
  ret (Orm.orderAsc startKey
         (filter (fun s =>
                    Orm.dateIs (fun start => start >? now) (startTime s)
                    && (Session.status (session s) =? "scheduled")%string)
                 table)).

End SessionSchedule.

(** ** The rest of the Attendance model *)

Module AttendanceDuration.

(** [Math.round(a / b)] for an integer [a] and a positive integer [b]:
    the nearest integer, a half rounding up. *)
Definition roundDiv (a b : Z) : Z := (2 * a + b) / (2 * b).

(** [calculateDuration()]: the value returned and the record as the call
    leaves it. *)
Definition calculateDuration (this : Attendance.t) : Z * Attendance.t :=
  match Attendance.checkInTime this, Attendance.checkOutTime this with
  | Some checkIn, Some checkOut =>
      let duration := roundDiv (checkOut - checkIn) (1000 * 60) in
      (duration,
       Attendance.mk (Attendance.status this) (Attendance.checkInTime this)
         (Attendance.checkOutTime this) (Some duration)
         (Attendance.markedBy this) (Attendance.markedAt this)
         (Attendance.reason this))
  | _, _ => (0, this)
  end.

End AttendanceDuration.

(** ** String methods of the runtime *)

Module Str.

(** [s.includes(sub)] *)
Fixpoint includes (sub s : string) : bool :=
  String.prefix sub s
  || match s with
     | EmptyString => false
     | String _ s' => includes sub s'
     end.

(** [s.endsWith(suffix)] *)
Definition endsWith (suffix s : string) : bool :=
  (String.length suffix <=? String.length s)%nat
  && (String.substring (String.length s - String.length suffix)
                       (String.length suffix) s =? suffix)%string.

(** [s.split(sep)] for a one-character separator. *)
Fixpoint split (sep : ascii) (s : string) : list string :=
  match s with
  | EmptyString => [EmptyString]
  | String ch s' =>
      if Ascii.eqb ch sep then EmptyString :: split sep s'
      else match split sep s' with
           | piece :: pieces => String ch piece :: pieces
           | [] => [String ch EmptyString]
           end
  end.

(** [v || fallback] for a string or [undefined]: the fallback replaces
    [undefined] and the empty string. *)
Definition orElse (v : option string) (fallback : string) : string :=
  match v with
  | Some s => if (s =? "")%string then fallback else s
  | None => fallback
  end.

End Str.

(** ** The file-upload handler of the error middleware *)

Module ErrorHelpers.

(** What the helper sends: [res.status(code).json(body)]. *)
Record Reply : Type := mkReply {
  code : Z;
  success : bool;
  text : string;
  timestamp : Z
}.

(** The message [handleFileUploadError] settles on; [maxFileSize] is
    [process.env.MAX_FILE_SIZE].  [None]: reading [includes] off an absent
    [err.message] threw. *)
Definition fileUploadMessage (maxFileSize : option string)
    (err : ErrorHandler.Err) : option string :=
  if ErrorHandler.codeIs err "LIMIT_FILE_SIZE" then
    Some ("File size exceeds limit of " ++ Str.orElse maxFileSize "10MB")
  else if ErrorHandler.codeIs err "LIMIT_FILE_COUNT" then
    Some "Too many files uploaded"
  else if ErrorHandler.codeIs err "LIMIT_UNEXPECTED_FILE" then
    Some "Unexpected file field"
  else
    match ErrorHandler.message err with
    | Some m =>
        if Str.includes "File type not allowed" m
        then Some "File type not allowed"
        else Some "File upload failed"
    | None => None
    end.

Definition handleFileUploadError (maxFileSize : option string)
    (err : ErrorHandler.Err) : JS.IO (option Reply) :=
  let statusCode := 400 in
  match fileUploadMessage maxFileSize err with
  | Some message =>
      stamp <- JS.newDate ;;
      ret (Some (mkReply statusCode false message stamp))
  | None => ret None
  end.

End ErrorHelpers.

(** ** The authentication middleware *)

Module Auth.

Record User : Type := mkUser {
  id : string;
  email : string;
  role : string;
  status : string
}.

(** How a middleware ends: it calls [next()] or it answers itself. *)
Inductive Verdict : Type :=
| Next
| Respond (code : Z) (message : string).

(** [authHeader && authHeader.split(' ')[1]], [None] standing for every
    falsy outcome. *)
Definition tokenOf (authHeader : option string) : option string :=
  if JS.truthy authHeader then
    match authHeader with
    | Some h =>
        match nth_error (Str.split " "%char h) 1 with
        | Some token => if JS.truthy (Some token) then Some token else None
        | None => None
        end
    | None => None
    end
  else None.

(** The [catch] block of [authenticateToken]. *)
Definition onError (error : ErrorHandler.Err) : Z * string :=
  if (ErrorHandler.name error =? "TokenExpiredError")%string
  then (401, "Token expired")
  else if (ErrorHandler.name error =? "JsonWebTokenError")%string
  then (401, "Invalid token")
  else (500, "Authentication error").

Section Backends.

(** [jwt.verify(token, secret)]: the error it throws or the [userId] of
    the decoded payload. *)
Variable verify : string -> ErrorHandler.Err + option string.

(** [User.findByPk(id)]: the error it throws, or the user found, if any. *)
Variable findByPk : option string -> ErrorHandler.Err + option User.

(** [authenticateToken]: the user put in [req.user] when [next()] is
    called, or the status and message answered. *)
Definition authenticateToken (authHeader : option string)
    : User + Z * string :=
  match tokenOf authHeader with
  | None => inr (401, "Access token required")
  | Some token =>
      match verify token with
      | inl error => inr (onError error)
      | inr userId =>
          match findByPk userId with
          | inl error => inr (onError error)
          | inr None => inr (401, "Invalid token - user not found")
          | inr (Some user) =>
              if negb (status user =? "active")%string
              then inr (403, "Account is not active")
              else inl user
          end
      end
  end.

End Backends.

(** The [roles] argument of [requireRole]: one role or an array. *)
Inductive Roles : Type :=
| One (role : string)
| Many (roles : list string).

(** [Array.isArray(roles) ? roles : [roles]] *)
Definition allowedRoles (roles : Roles) : list string :=
  match roles with
  | One r => [r]
  | Many l => l
  end.

(** [allowedRoles.includes(userRole)] *)
Definition includesRole (allowed : list string) (userRole : string) : bool :=
  existsb (fun r => (r =? userRole)%string) allowed.

(** [requireRole(roles)] applied to a request whose [req.user] is [user]. *)
Definition requireRole (roles : Roles) (user : option User) : Verdict :=
  match user with
  | None => Respond 401 "Authentication required"
  | Some u =>
      if negb (includesRole (allowedRoles roles) (role u))
      then Respond 403 "Insufficient permissions"
      else Next
  end.

Definition requireStudent : option User -> Verdict := requireRole (One "student").
Definition requireTutor : option User -> Verdict := requireRole (One "tutor").
Definition requireAdmin : option User -> Verdict :=
  requireRole (Many ["admin"; "super_admin"]).
Definition requireSuperAdmin : option User -> Verdict :=
  requireRole (One "super_admin").

End Auth.

(** ** [backend/routes/auth.js] *)

Module AuthRoutes.

(** The role the register route gives the new user: the role of the
    request body, or one read off the e-mail domain. *)
Definition assignRole (role : option string) (email : string) : string :=
  if negb (JS.truthy role) then
    if Str.endsWith "@std.com" email then "student"
    else if Str.endsWith "@tut.com" email then "tutor"
    else if Str.endsWith "@adm.com" email then "admin"
    else "student"
  else match role with
       | Some r => r
       | None => ""
       end.

(** The reset fields the routes keep in [user.preferences]; the other keys
    of the object are carried along unchanged and left out here.  [None]
    is the [null] the reset route writes into both fields. *)
Record Preferences : Type := mkPreferences {
  resetToken : option string;
  resetTokenExpires : option Z
}.

(** A row of the users table, with the columns the two routes touch.
    [password] holds what a route assigns to [user.password]; the User
    model is not among the sources, and what its hooks do to the column
    on [save] is not part of this model. *)
Record Account : Type := mkAccount {
  accountId : string;
  accountEmail : string;
  password : string;
  preferences : option Preferences
}.

(** A decoded JWT payload; [exp] is the expiry claim, in seconds since the
    epoch, when the token has one. *)
Record Decoded : Type := mkDecoded {
  userId : string;
  type : string;
  exp : option Z
}.

(** What a route answers: status, [success] and [message]. *)
Record Answer : Type := mkAnswer {
  code : Z;
  success : bool;
  message : string
}.

(** [User.findByPk(id)] on the users table. *)
Definition findByPk (id : string) (users : list Account) : option Account :=
  find (fun a => (accountId a =? id)%string) users.

(** [user.save()]: the row of that primary key is replaced. *)
Definition save (user : Account) (users : list Account) : list Account :=
  map (fun a => if (accountId a =? accountId user)%string then user else a) users.

Definition genericAnswer : Answer :=
  mkAnswer 200 true
    "If an account with that email exists, a password reset link has been sent.".

Section Routes.

(** [User.findByEmail(email)], a class method of the User model. *)
Variable findByEmail : string -> list Account -> option Account.

(** The token [jwt.sign] makes of a payload under [JWT_SECRET]; [None]
    when it throws. *)
Variable encode : Decoded -> option string.

(** The payload of a token whose signature [jwt.verify] accepts under
    [JWT_SECRET]; [None] when it throws [JsonWebTokenError]. *)
Variable decode : string -> option Decoded.

(** Whether the queries and the saves of the request throw; the route's
    [catch] then answers 500. *)
Variables queryFails saveFails : bool.

(** [jwt.sign({ userId, type: 'password_reset' }, secret,
    { expiresIn: '1h' })]: the library stamps the payload with the second
    of the call, [Math.floor(Date.now() / 1000)], plus 3600 as [exp]. *)
Definition signReset (userId' : string) : JS.IO (option string) :=
  now <- JS.newDate ;;
  ret (encode (mkDecoded userId' "password_reset"
                         (Some (now / 1000 + 60 * 60)))).

(** [jwt.verify(token, secret)]: the library reads the clock, checks the
    signature and throws [TokenExpiredError] once
    [Math.floor(Date.now() / 1000) >= exp]; [None] when it throws. *)
Definition verify (token : string) : JS.IO (option Decoded) :=
  now <- JS.newDate ;;
  ret (match decode token with
       | Some payload =>
           match exp payload with
           | Some e => if e <=? now / 1000 then None else Some payload
           | None => Some payload
           end
       | None => None
       end).

(** [POST /forgot-password]; [invalid] tells whether express-validator
    found errors.  Returns the answer and the users table afterwards. *)
Definition forgotPassword (invalid : bool) (email : string)
    (users : list Account) : JS.IO (Answer * list Account) :=
  let failed := mkAnswer 500 false "Password reset request failed" in
  if invalid then ret (mkAnswer 400 false "Validation errors", users)
  else if queryFails then ret (failed, users)
  else
    match findByEmail email users with
    | None => ret (genericAnswer, users)
    | Some user =>
        signed <- signReset (accountId user) ;;
        match signed with
        | None => ret (failed, users)
        | Some resetToken' =>
            now <- JS.newDate ;;
            let user' :=
              mkAccount (accountId user) (accountEmail user) (password user)
                (Some (mkPreferences (Some resetToken')
                                     (Some (now + 60 * 60 * 1000)))) in
            if saveFails then ret (failed, users)
            else ret (genericAnswer, save user' users)
        end
    end.

(** The test of the reset route: the stored reset token is missing,
    differs from the presented one, or has expired. *)
Definition resetTokenRejected (user : Account) (token : string) : JS.IO bool :=
  match preferences user with
  | None => ret true
  | Some prefs =>
      if negb (JS.truthy (resetToken prefs)) then ret true
      else if negb (match resetToken prefs with
                    | Some stored => (stored =? token)%string
                    | None => false
                    end)
      then ret true
      else
        now <- JS.newDate ;;
        ret (Payment.toDate (resetTokenExpires prefs) <? now)
  end.

(** [POST /reset-password] *)
Definition resetPassword (invalid : bool) (token password' : string)
    (users : list Account) : JS.IO (Answer * list Account) :=
  let failed := mkAnswer 500 false "Password reset failed" in
  if invalid then ret (mkAnswer 400 false "Validation errors", users)
  else
    verified <- verify token ;;
    match verified with
    | None => ret (mkAnswer 400 false "Invalid or expired reset token", users)
    | Some decoded =>
        if negb (type decoded =? "password_reset")%string
        then ret (mkAnswer 400 false "Invalid token type", users)
        else if queryFails then ret (failed, users)
        else
          match findByPk (userId decoded) users with
          | None => ret (mkAnswer 404 false "User not found", users)
          | Some user =>
              rejected <- resetTokenRejected user token ;;
              if rejected
              then ret (mkAnswer 400 false "Invalid or expired reset token",
                        users)
              else
                let user' :=
                  mkAccount (accountId user) (accountEmail user) password'
                            (Some (mkPreferences None None)) in
                if saveFails then ret (failed, users)
                else ret (mkAnswer 200 true "Password reset successful",
                          save user' users)
          end
    end.

End Routes.

End AuthRoutes.

(** ** The client's authentication context ([contexts/AuthContext.js]) *)

Module AuthContext.

(** A plain object with string values: its bindings, the first binding of
    a key giving the key's value. *)
Definition Obj : Type := list (string * string).

Fixpoint get (key : string) (o : Obj) : option string :=
  match o with
  | [] => None
  | (k, v) :: o' => if (k =? key)%string then Some v else get key o'
  end.

(** [{ ...a, ...b }]: the bindings of [b] come before those of [a]. *)
Definition spread (a b : Obj) : Obj := (b ++ a)%list.

Record State : Type := mkState {
  user : option Obj;
  token : option string;
  loading : bool;
  error : option string
}.

(** The actions by [type], each with its [payload]; [Other] is any type
    the reducer does not know. *)
Inductive Action : Type :=
| SET_LOADING (payload : bool)
| SET_USER (payload : option Obj)
| SET_TOKEN (payload : option string)
| UPDATE_USER (payload : Obj)
| LOGOUT
| SET_ERROR (payload : option string)
| CLEAR_ERROR
| Other.

Definition authReducer (state : State) (action : Action) : State :=
  match action with
  | SET_LOADING payload =>
      mkState (user state) (token state) payload (error state)
  | SET_USER payload => mkState payload (token state) false None
  | SET_TOKEN payload =>
      mkState (user state) payload (loading state) (error state)
  | UPDATE_USER payload =>
      mkState (Some (spread (match user state with
                             | Some u => u
                             | None => []
                             end) payload))
              (token state) (loading state) (error state)
  | LOGOUT => mkState None None false None
  | SET_ERROR payload => mkState (user state) (token state) false payload
  | CLEAR_ERROR => mkState (user state) (token state) (loading state) None
  | Other => state
  end.

(** [hasRole(roles)] *)
Definition hasRole (roles : Auth.Roles) (state : State) : bool :=
  match user state with
  | None => false
  | Some u =>
      match get "role" u with
      | Some r => Auth.includesRole (Auth.allowedRoles roles) r
      | None => false
      end
  end.

Definition isStudent : State -> bool := hasRole (Auth.One "student").
Definition isTutor : State -> bool := hasRole (Auth.One "tutor").
Definition isAdmin : State -> bool := hasRole (Auth.Many ["admin"; "super_admin"]).
Definition isSuperAdmin : State -> bool := hasRole (Auth.One "super_admin").

(** The provider's state together with what it keeps outside React:
    the two [localStorage] items, the default [Authorization] header of
    the API client and the page shown ([window.location.href]). *)
Record Browser : Type := mkBrowser {
  state : State;
  storedToken : option string;
  storedRefreshToken : option string;
  authorization : option string;
  location : string
}.

Definition dispatch (actions : list Action) (b : Browser) : Browser :=
  mkBrowser (fold_left authReducer actions (state b)) (storedToken b)
            (storedRefreshToken b) (authorization b) (location b).

(** One answer of the server: the [data.data] of a successful response, or
    the status and the [data.message] of an error ([None] where the error
    has none, as when no response came at all). *)
Inductive Http (A : Type) : Type :=
| Ok (data : A)
| Error (status : option Z) (message : option string).
Arguments Ok {A} data.
Arguments Error {A} status message.

(** What the server answers in the course of one call through the [api]
    client: to the request itself, to the refresh that the response
    interceptor attempts after a 401, and to the request sent again after
    that refresh.  The last two are consulted on that path only. *)
Record Exchange (A : Type) : Type := mkExchange {
  first : Http A;
  refreshed : Http string;
  retried : Http A
}.
Arguments mkExchange {A} first refreshed retried.
Arguments first {A} e.
Arguments refreshed {A} e.
Arguments retried {A} e.

(** What the caller of the [api] client comes back with: the [data.data]
    of the response, or the [response.data.message] of the error thrown,
    if it has one. *)
Inductive ApiResult (A : Type) : Type :=
| Succeeded (data : A)
| Failed (message : option string).
Arguments Succeeded {A} data.
Arguments Failed {A} message.

(** [error.response?.status === 401] *)
Definition is401 {A : Type} (answer : Http A) : bool :=
  match answer with
  | Error (Some status) _ => status =? 401
  | _ => false
  end.

(** Whether the response interceptor attempts a refresh: the request was
    answered 401 and a refresh token is stored. *)
Definition refreshes {A : Type} (x : Exchange A) (b : Browser) : bool :=
  is401 (first x) && JS.truthy (storedRefreshToken b).

(** A request through the [api] client, with its response interceptor
    ([services/api]).  A 401 makes it fetch a new access token with the
    stored refresh token, store it and send the request once more (a
    second 401 is then passed on); when that refresh fails it removes both
    stored items and sends the page to [/login]. *)
Definition request {A : Type} (x : Exchange A) (b : Browser)
    : ApiResult A * Browser :=
  match first x with
  | Ok data => (Succeeded data, b)
  | Error _ message =>
      if refreshes x b then
        match refreshed x with
        | Ok accessToken =>
            let b := mkBrowser (state b) (Some accessToken)
                               (storedRefreshToken b) (authorization b)
                               (location b) in
            match retried x with
            | Ok data => (Succeeded data, b)
            | Error _ message' => (Failed message', b)
            end
        | Error _ message' =>
            (Failed message',
             mkBrowser (state b) None None (authorization b) "/login")
        end
      else (Failed message, b)
  end.

Record Session : Type := mkSession {
  sessionUser : Obj;
  accessToken : string;
  refreshToken : string
}.

(** [login] and [register] differ by the endpoint and the fallback
    message only.  The result is the browser afterwards and the message of
    the error thrown, if any. *)
Definition signIn (fallback : string) (x : Exchange Session)
    (b : Browser) : Browser * option string :=
  let b := dispatch [SET_LOADING true; CLEAR_ERROR] b in
  let (result, b) := request x b in
  match result with
  | Succeeded s =>
      let b := mkBrowser (state b) (Some (accessToken s))
                         (Some (refreshToken s))
                         (Some ("Bearer " ++ accessToken s)) (location b) in
      (dispatch [SET_TOKEN (Some (accessToken s));
                 SET_USER (Some (sessionUser s))] b, None)
  | Failed message =>
      let errorMessage := Str.orElse message fallback in
      (dispatch [SET_ERROR (Some errorMessage)] b, Some errorMessage)
  end.

Definition login : Exchange Session -> Browser -> Browser * option string :=
  signIn "Login failed".

Definition register : Exchange Session -> Browser -> Browser * option string :=
  signIn "Registration failed".



End AuthContext.

(** ** More concrete records for the examples *)

Module MoreSamples.

Definition overdueRow : PaymentFinders.Row :=
  PaymentFinders.mkRow "student-1" (Samples.pending (Some Samples.jan30_10h)).

Definition failedRow : PaymentFinders.Row :=
  PaymentFinders.mkRow "student-1"
    (Payment.mk 10000 "credit_card" "failed" None None
                (Some Samples.jan30_10h) None None None None None "prod" None).

(** A payment stored at [t]. *)
Definition storedAt (t : Z) : Payment.t :=
  Payment.mk 10000 "credit_card" "pending" None None None None None None None
             (Some "INV-202401-0001") "prod" (Some t).

(** Checked in at 10:00 and out 60 minutes later. *)
Definition attended : Attendance.t :=
  Attendance.mk "present" (Some Samples.jan30_10h)
                (Some (Samples.jan30_10h + 60000 * 60)) None None None None.

Definition expiredToken : ErrorHandler.Err :=
  ErrorHandler.mkErr "TokenExpiredError" (Some "jwt expired") None None None
                     None None None.

Definition account : AuthRoutes.Account :=
  AuthRoutes.mkAccount "user-1" "ana@std.com" "old-secret" None.

Definition findByEmail (email : string) (users : list AuthRoutes.Account)
    : option AuthRoutes.Account :=
  find (fun a => (AuthRoutes.accountEmail a =? email)%string) users.

Definition encode (payload : AuthRoutes.Decoded) : option string :=
  Some ("reset-" ++ AuthRoutes.userId payload).

(** The token issued to user-1 at 10:00 on 2024-01-30, good for an hour. *)
Definition decode (token : string) : option AuthRoutes.Decoded :=
  if (token =? "reset-user-1")%string
  then Some (AuthRoutes.mkDecoded "user-1" "password_reset"
               (Some (Samples.jan30_10h / 1000 + 3600)))
  else None.

(** An account with a reset token that [decode] accepts, valid until
    11:00 on 2024-01-30. *)
Definition accountWithToken : AuthRoutes.Account :=
  AuthRoutes.mkAccount "user-1" "ana@std.com" "old-secret"
    (Some (AuthRoutes.mkPreferences (Some "reset-user-1")
                                    (Some (Samples.jan30_10h + 3600000)))).

Definition tutor : Auth.User :=
  Auth.mkUser "user-2" "tom@tut.com" "tutor" "active".

Definition signedIn : AuthContext.Browser :=
  AuthContext.mkBrowser
    (AuthContext.mkState (Some [("id", "user-2"); ("role", "tutor")])
                         (Some "access-1") false None)
    (Some "access-1") (Some "refresh-1") (Some "Bearer access-1") "/".

(** A login with a wrong password by someone signed in: the route answers
    401, the interceptor obtains a new access token and the second attempt
    is answered 401 again. *)
Definition wrongPassword : AuthContext.Exchange AuthContext.Session :=
  AuthContext.mkExchange
    (AuthContext.Error (Some 401) (Some "Invalid credentials"))
    (AuthContext.Ok "access-2")
    (AuthContext.Error (Some 401) (Some "Invalid credentials")).



End MoreSamples.

(** * Properties *)

(** ** The calendar arithmetic *)

(** [YearFromTime t] is the year whose days contain [Day t]. *)
Lemma YearFromTime_spec (t : Z) :
  JS.DayFromYear (JS.YearFromTime t) <= JS.Day t
    < JS.DayFromYear (JS.YearFromTime t + 1).
Proof.
  unfold JS.YearFromTime. cbv zeta. generalize (JS.Day t). intros d.
  set (e := 1970 + d * 400 / 146097).
  assert (He : 146097 * (e - 1970) <= d * 400 < 146097 * (e - 1970) + 146097).
  { unfold e.
    pose proof (Z.mul_div_le (d * 400) 146097 ltac:(lia)).
    pose proof (Z.mul_succ_div_gt (d * 400) 146097 ltac:(lia)). lia. }
  clearbody e.
  destruct (Z.ltb_spec d (JS.DayFromYear e));
    [|destruct (Z.leb_spec (JS.DayFromYear (e + 1)) d)];
    unfold JS.DayFromYear in *;
    Z.to_euclidean_division_equations; lia.
Qed.

Lemma year_length (y : Z) :
  JS.DayFromYear (y + 1) =
  JS.DayFromYear y + 365 + (if JS.isLeap y then 1 else 0).
Proof.
  unfold JS.DayFromYear, JS.isLeap.
  destruct (Z.eqb_spec (y mod 4) 0); destruct (Z.eqb_spec (y mod 100) 0);
    destruct (Z.eqb_spec (y mod 400) 0); cbn [negb andb orb];
    Z.to_euclidean_division_equations; lia.
Qed.

Lemma Day_bounds (t : Z) :
  JS.msPerDay * JS.Day t <= t < JS.msPerDay * (JS.Day t + 1).
Proof.
  unfold JS.Day, JS.msPerDay.
  pose proof (Z.mul_div_le t 86400000 ltac:(lia)).
  pose proof (Z.mul_succ_div_gt t 86400000 ltac:(lia)). lia.
Qed.

(** A time lies in the month [getMonth] names: from the first instant of
    that month up to, and not including, the first instant of the next. *)
Lemma month_bounds (t : Z) :
  let y := JS.getFullYear t in
  let m := JS.getMonth t in
  0 <= m <= 11 /\
  (y < 0 \/ 99 < y ->
   JS.newDateYMD y m 1 <= t < JS.newDateYMD y (m + 1) 1).
Proof.
  cbv zeta. unfold JS.getFullYear, JS.getMonth, JS.MonthFromTime, JS.DayWithinYear.
  pose proof (YearFromTime_spec t) as Hy.
  pose proof (Day_bounds t) as Hd.
  pose proof (year_length (JS.YearFromTime t)) as Hl.
  set (y := JS.YearFromTime t) in *.
  set (d := JS.Day t) in *.
  assert (Hnew : forall m, 0 <= m <= 12 -> (y < 0 \/ 99 < y) ->
            JS.newDateYMD y m 1 =
            (if m =? 12 then JS.DayFromYear (y + 1)
             else JS.DayFromYear y + JS.daysBeforeMonth (JS.isLeap y) m)
            * JS.msPerDay).
  { intros m Hm Hrange. unfold JS.newDateYMD, JS.MakeDay.
    replace ((0 <=? y) && (y <=? 99)) with false
      by (symmetry; apply andb_false_iff; lia).
    destruct (Z.eq_dec m 12) as [->|Hne].
    - change (12 / 12) with 1. change (12 mod 12) with 0.
      change (JS.daysBeforeMonth (JS.isLeap (y + 1)) 0) with 0.
      rewrite (Z.eqb_refl 12). f_equal. lia.
    - rewrite Z.div_small, Z.mod_small by lia. rewrite Z.add_0_r.
      destruct (Z.eqb_spec m 12); [contradiction|]. f_equal. lia. }
  clearbody y d.
  set (D := JS.DayFromYear y) in *.
  set (D1 := JS.DayFromYear (y + 1)) in *.
  clearbody D D1.
  unfold JS.msPerDay in *.
  destruct (JS.isLeap y); cbn in Hl |- *;
  repeat match goal with
         | |- context [if ?a <? ?b then _ else _] => destruct (Z.ltb_spec a b)
         end;
  (split; [lia|]); intros Hr;
  rewrite !Hnew by lia; cbn; lia.
Qed.

(** The upper bound of the hook's query, day 0 of the next month, is the
    midnight one day before the first instant of the next month. *)
Lemma query_upper_bound (year month : Z) :
  JS.newDateYMD year (month + 1) 0 =
  JS.newDateYMD year (month + 1) 1 - JS.msPerDay.
Proof. unfold JS.newDateYMD, JS.MakeDay. lia. Qed.

(** ** Payment: overdue computation *)

Section PaymentOverdue.

Variable p : Payment.t.
Variable c : JS.Clock.

(** What [isOverdue] returns, as a pure function of the next clock reading. *)
Lemma isOverdue_run :
  JS.run (Payment.isOverdue p) c =
  match Payment.dueDate p with
  | None => false
  | Some due => negb (Payment.isCompleted p) && (due <? JS.reading c 0)
  end.
Proof.
  unfold Payment.isOverdue, JS.run, JS.reading.
  destruct (Payment.dueDate p) as [due|]; [|reflexivity].
  destruct (Payment.isCompleted p); [reflexivity|].
  cbn. rewrite Nat.add_0_r, Z.gtb_ltb. reflexivity.
Qed.

End PaymentOverdue.

Lemma isOverdue_has_dueDate (p : Payment.t) (c : JS.Clock) :
  JS.run (Payment.isOverdue p) c = true ->
  exists due, Payment.dueDate p = Some due.
Proof.
  rewrite isOverdue_run.
  destruct (Payment.dueDate p) as [due|]; [eauto | discriminate].
Qed.

(** C1. [isOverdue] answers true exactly when the status is not
    ['completed'] and the current time (the clock reading the call takes)
    is strictly after the due date. *)
Theorem C1_isOverdue_iff (p : Payment.t) (c : JS.Clock) :
  JS.run (Payment.isOverdue p) c = true <->
  Payment.status p <> "completed" /\
  exists due, Payment.dueDate p = Some due /\ due < JS.reading c 0.
Proof.
  rewrite isOverdue_run. unfold Payment.isCompleted.
  destruct (Payment.dueDate p) as [due|].
  - rewrite andb_true_iff, negb_true_iff, Z.ltb_lt.
    destruct (String.eqb_spec (Payment.status p) "completed") as [E|E].
    + split; [intros [H _]; discriminate | intros [H _]; contradiction].
    + split.
      * intros [_ H]. split; [assumption | exists due; auto].
      * intros [_ [d [Hd H]]]. injection Hd as ->. auto.
  - split; [discriminate | intros [_ [d [Hd _]]]; discriminate].
Qed.

(** [ceilDiv a b] is the least integer [q] with [a <= b * q]. *)
Lemma ceilDiv_bounds (a b : Z) :
  0 < b -> b * (JS.ceilDiv a b - 1) < a <= b * JS.ceilDiv a b.
Proof.
  intros Hb. unfold JS.ceilDiv.
  pose proof (Z.mul_div_le (- a) b Hb).
  pose proof (Z.mul_succ_div_gt (- a) b Hb).
  lia.
Qed.

Lemma getDaysOverdue_run (p : Payment.t) (c : JS.Clock) :
  JS.run (Payment.getDaysOverdue p) c =
  if JS.run (Payment.isOverdue p) c
  then JS.ceilDiv (JS.reading c 1 - Payment.toDate (Payment.dueDate p)) 86400000
  else 0.
Proof.
  unfold Payment.getDaysOverdue, Payment.isOverdue, JS.run, JS.reading.
  destruct (Payment.dueDate p) as [due|]; [|reflexivity].
  destruct (Payment.isCompleted p); [reflexivity|].
  cbn. rewrite Nat.add_1_r.
  destruct (_ >? _); reflexivity.
Qed.

(** C5, as stated, fails in its scenario: a pending payment that fell due
    yesterday at 00:00, looked at today at 10:00, is overdue, and
    [getDaysOverdue] returns 2, not 1. *)
Lemma C5_yesterday_two_days :
  JS.run (Payment.isOverdue
            (Samples.pending (Some (Samples.jan30_10h - 36000000))))
         (Samples.hourly Samples.jan31_10h) = true /\
  JS.run (Payment.getDaysOverdue
            (Samples.pending (Some (Samples.jan30_10h - 36000000))))
         (Samples.hourly Samples.jan31_10h) = 2.
Proof. split; reflexivity. Qed.

(** C5, amended. When [isOverdue] holds, [getDaysOverdue] is the ceiling of
    (now - dueDate) / 86400000, that is the least number of whole days
    covering the delay, [now] being the reading the method takes after the
    overdue test; when [isOverdue] fails it is 0.  A pending payment past
    its due date is overdue, and it is 1 day overdue exactly when that
    reading lies after the due date by at most 24 hours; a due date
    further back, also one of the day before, counts 2 or more. *)
Theorem C5_getDaysOverdue (p : Payment.t) (c : JS.Clock) :
  (JS.run (Payment.isOverdue p) c = true ->
   exists due, Payment.dueDate p = Some due /\
     let days := JS.run (Payment.getDaysOverdue p) c in
     let now := JS.reading c 1 in
     86400000 * (days - 1) < now - due <= 86400000 * days) /\
  (JS.run (Payment.isOverdue p) c = false ->
   JS.run (Payment.getDaysOverdue p) c = 0) /\
  (forall due,
     Payment.status p = "pending" ->
     Payment.dueDate p = Some due ->
     due < JS.reading c 0 ->
     JS.run (Payment.isOverdue p) c = true /\
     (JS.run (Payment.getDaysOverdue p) c = 1 <->
      due < JS.reading c 1 <= due + 86400000) /\
     (due + 86400000 < JS.reading c 1 ->
      2 <= JS.run (Payment.getDaysOverdue p) c)).
Proof.
  split; [|split].
  - intros H. pose proof H as H'. apply isOverdue_has_dueDate in H'.
    destruct H' as [due Hd]. exists due. split; [assumption|].
    cbv zeta. rewrite getDaysOverdue_run, H, Hd. simpl Payment.toDate.
    apply ceilDiv_bounds. lia.
  - intros H. rewrite getDaysOverdue_run, H. reflexivity.
  - intros due Hs Hd H0.
    assert (Ho : JS.run (Payment.isOverdue p) c = true).
    { rewrite isOverdue_run, Hd. unfold Payment.isCompleted. rewrite Hs.
      apply andb_true_iff. split; [reflexivity | apply Z.ltb_lt; assumption]. }
    split; [assumption|].
    rewrite getDaysOverdue_run, Ho, Hd. simpl Payment.toDate.
    pose proof (ceilDiv_bounds (JS.reading c 1 - due) 86400000 ltac:(lia)).
    lia.
Qed.

(** One millisecond more than a day of delay already counts as 2 days. *)
Remark getDaysOverdue_rounds_up :
  let t := Samples.jan31_10h in
  JS.run (Payment.getDaysOverdue (Samples.pending (Some (t - 86400001))))
         (Samples.frozen t) = 2.
Proof. reflexivity. Qed.

(** C10. With no due date, [isOverdue] is false and [getDaysOverdue] is 0,
    whatever the status and the time. *)
Theorem C10_no_dueDate (p : Payment.t) (c : JS.Clock) :
  Payment.dueDate p = None ->
  JS.run (Payment.isOverdue p) c = false /\
  JS.run (Payment.getDaysOverdue p) c = 0.
Proof.
  intros H. rewrite getDaysOverdue_run, isOverdue_run, H. split; reflexivity.
Qed.

(** ** Session: capacity *)

(** C4. [canJoin] holds exactly for a scheduled session with a free place;
    a session of capacity 1 holding 1 student cannot be joined. *)
Theorem C4_canJoin_iff (s : Session.t) :
  (Session.canJoin s = true <->
   Session.status s = "scheduled" /\
   Session.currentStudents s < Session.maxStudents s) /\
  (forall st, Session.canJoin (Session.mk st 1 1) = false).
Proof.
  split.
  - unfold Session.canJoin, Session.isFull.
    rewrite andb_true_iff, negb_true_iff, String.eqb_eq, Z.geb_leb, Z.leb_gt.
    reflexivity.
  - intros st. unfold Session.canJoin, Session.isFull. cbn.
    apply andb_false_r.
Qed.

(** ** Payment: completion *)

Lemma run_bind {A B : Type} (m : JS.IO A) (f : A -> JS.IO B) (c : JS.Clock) :
  JS.run (bind m f) c = JS.run (f (JS.run m c)) (JS.after m c).
Proof.
  unfold JS.run, JS.after. cbn. destruct (runState m c). reflexivity.
Qed.

Lemma after_bind {A B : Type} (m : JS.IO A) (f : A -> JS.IO B) (c : JS.Clock) :
  JS.after (bind m f) c = JS.after (f (JS.run m c)) (JS.after m c).
Proof.
  unfold JS.run, JS.after. cbn. destruct (runState m c). reflexivity.
Qed.

Lemma markAsCompleted_after tid gw (p : Payment.t) (c : JS.Clock) :
  JS.after (Payment.markAsCompleted tid gw p) c =
  JS.mkClock (JS.timeline c) (S (JS.taken c)).
Proof. reflexivity. Qed.

Lemma markAsCompleted_fields tid gw (p : Payment.t) (c : JS.Clock) :
  let p' := JS.run (Payment.markAsCompleted tid gw p) c in
  Payment.status p' = "completed" /\
  Payment.paidAt p' = Some (JS.reading c 0).
Proof.
  unfold JS.reading. rewrite Nat.add_0_r. split; reflexivity.
Qed.

Lemma markAsCompletedTimes_after (n : nat) args (p : Payment.t) (c : JS.Clock) :
  JS.after (Payment.markAsCompletedTimes n args p) c =
  JS.mkClock (JS.timeline c) (JS.taken c + n).
Proof.
  induction n as [|n IH]; cbn [Payment.markAsCompletedTimes].
  - unfold JS.after. cbn. rewrite Nat.add_0_r. destruct c; reflexivity.
  - rewrite after_bind, markAsCompleted_after, IH. cbn.
    rewrite Nat.add_succ_r. reflexivity.
Qed.

(** C6. After one or more calls of [markAsCompleted] the status is
    ['completed'] and [paidAt] is the clock reading taken by the last call;
    a second call replaces the [paidAt] of the first by its own reading. *)
Theorem C6_markAsCompleted_repeated (p : Payment.t) (c : JS.Clock) :
  (forall n args,
     let p' := JS.run (Payment.markAsCompletedTimes (S n) args p) c in
     Payment.status p' = "completed" /\
     Payment.paidAt p' = Some (JS.reading c n)) /\
  (forall tid1 gw1 tid2 gw2,
     let p1 := JS.run (Payment.markAsCompleted tid1 gw1 p) c in
     let c1 := JS.after (Payment.markAsCompleted tid1 gw1 p) c in
     let p2 := JS.run (Payment.markAsCompleted tid2 gw2 p1) c1 in
     Payment.status p1 = "completed" /\
     Payment.status p2 = "completed" /\
     Payment.paidAt p1 = Some (JS.reading c 0) /\
     Payment.paidAt p2 = Some (JS.reading c1 0) /\
     JS.reading c1 0 = JS.reading c 1).
Proof.
  split.
  - intros n args. cbv zeta. cbn [Payment.markAsCompletedTimes].
    rewrite run_bind, markAsCompletedTimes_after.
    split; [reflexivity|].
    reflexivity.
  - intros tid1 gw1 tid2 gw2. cbv zeta. unfold JS.reading. cbn.
    rewrite !Nat.add_0_r, Nat.add_1_r. repeat split; reflexivity.
Qed.

(** ** Payment: creation hook *)

Lemma assignInvoiceNumber_keeps (table : list Payment.t) (p : Payment.t)
    (c : JS.Clock) :
  let p' := JS.run (Payment.assignInvoiceNumber table p) c in
  Payment.status p' = Payment.status p /\
  Payment.amount p' = Payment.amount p /\
  Payment.paymentMethod p' = Payment.paymentMethod p.
Proof.
  unfold Payment.assignInvoiceNumber.
  destruct (negb (JS.truthy (Payment.invoiceNumber p))); cbn; auto.
Qed.

Lemma beforeCreate_dev (table : list Payment.t) (values : Payment.t)
    (c : JS.Clock) :
  let p' := JS.run (Payment.beforeCreate (Some "dev") table values) c in
  Payment.status p' = "completed" /\
  Payment.amount p' = 0 /\
  Payment.paymentMethod p' = "dev_mode".
Proof.
  cbv zeta. unfold Payment.beforeCreate. rewrite run_bind.
  destruct (assignInvoiceNumber_keeps table
              (JS.run (Payment.devOverride (Some "dev") values) c)
              (JS.after (Payment.devOverride (Some "dev") values) c))
    as (Hs & Ha & Hm).
  rewrite Hs, Ha, Hm. repeat split; reflexivity.
Qed.

(** C7. With the environment flag at ['dev'], the hook forces status
    ['completed'], amount 0.00 and payment method ['dev_mode'] whatever the
    caller supplied, and so does every row that [create] stores. *)
Theorem C7_dev_mode_override (table : list Payment.t) (values : Payment.t)
    (c : JS.Clock) :
  (let p' := JS.run (Payment.beforeCreate (Some "dev") table values) c in
   Payment.status p' = "completed" /\
   Payment.amount p' = 0 /\
   Payment.paymentMethod p' = "dev_mode") /\
  (forall row table',
     JS.run (Payment.create (Some "dev") table values) c = inr (row, table') ->
     Payment.status row = "completed" /\
     Payment.amount row = 0 /\
     Payment.paymentMethod row = "dev_mode").
Proof.
  split; [apply beforeCreate_dev|].
  intros row table'. unfold Payment.create.
  rewrite run_bind, run_bind.
  set (c1 := JS.after JS.newDate c).
  set (now := JS.run JS.newDate c).
  pose proof (beforeCreate_dev table values c1) as H. cbv zeta in H.
  set (p' := JS.run (Payment.beforeCreate (Some "dev") table values) c1) in *.
  destruct (Payment.invoiceTaken table (Payment.setCreatedAt p' now));
    cbn; intros E; [discriminate|].
  injection E as <- _. exact H.
Qed.

(** ** Attendance: marking *)

(** C8. [markPresent], [markAbsent] and [markLate] each record the marker
    and stamp [markedAt] from the clock; [markPresent] and [markLate] also
    stamp [checkInTime] and set ['present'] and ['late']; [markAbsent] sets
    ['absent'], stores the reason it was given and keeps [checkInTime]. *)
Theorem C8_marking (a : Attendance.t) (by_ : option string)
    (why : option string) (c : JS.Clock) :
  (let a' := JS.run (Attendance.markPresent by_ a) c in
   Attendance.status a' = "present" /\
   Attendance.checkInTime a' = Some (JS.reading c 0) /\
   Attendance.markedBy a' = by_ /\
   Attendance.markedAt a' = Some (JS.reading c 1)) /\
  (let a' := JS.run (Attendance.markAbsent by_ why a) c in
   Attendance.status a' = "absent" /\
   Attendance.reason a' = why /\
   Attendance.markedBy a' = by_ /\
   Attendance.markedAt a' = Some (JS.reading c 0) /\
   Attendance.checkInTime a' = Attendance.checkInTime a) /\
  (let a' := JS.run (Attendance.markLate by_ a) c in
   Attendance.status a' = "late" /\
   Attendance.checkInTime a' = Some (JS.reading c 0) /\
   Attendance.markedBy a' = by_ /\
   Attendance.markedAt a' = Some (JS.reading c 1)).
Proof.
  unfold JS.reading. rewrite Nat.add_0_r, Nat.add_1_r.
  repeat split; reflexivity.
Qed.

(** ** Payment: refund *)

(** C2, as stated, fails: refunding 200.00 on a payment of 100.00 leaves a
    refunded record whose [refundAmount] exceeds its [amount]. *)
Lemma C2_refund_exceeds_amount :
  ~ Spec.refundedInvariant
      (JS.run (Payment.refund 20000 (Some "duplicate charge")
                 (Samples.completed None))
              (Samples.hourly Samples.jan30_10h)).
Proof.
  intros H. specialize (H eq_refl 20000 eq_refl). cbn in H. lia.
Qed.

(** C2, amended. [refund a reason] marks the payment ['refunded'] and
    stores [a] as [refundAmount] unchecked, the amount untouched; the
    refunded record satisfies refundAmount <= amount exactly when the
    caller's [a] is at most the payment's amount. *)
Theorem C2_refund_stores_amount (p : Payment.t) (a : Z)
    (reason : option string) (c : JS.Clock) :
  let p' := JS.run (Payment.refund a reason p) c in
  Payment.status p' = "refunded" /\
  Payment.refundAmount p' = Some a /\
  Payment.refundReason p' = reason /\
  Payment.refundedAt p' = Some (JS.reading c 0) /\
  Payment.amount p' = Payment.amount p /\
  (Spec.refundedInvariant p' <-> a <= Payment.amount p).
Proof.
  cbv zeta. unfold JS.reading. rewrite Nat.add_0_r.
  repeat split; try reflexivity.
  - intros H. apply (H eq_refl a eq_refl).
  - intros H _ r E. cbn in E. injection E as <-. exact H.
Qed.

(** ** Error translation *)

Lemma messageOrDefault_nonempty (error : ErrorHandler.Translated) :
  ErrorHandler.messageOrDefault error <> "".
Proof.
  unfold ErrorHandler.messageOrDefault.
  destruct (ErrorHandler.translatedMessage error) as [m|]; [|discriminate].
  destruct (String.eqb_spec m ""); [discriminate | assumption].
Qed.

Ltac split_tests err :=
  destruct (ErrorHandler.name err =? "SequelizeValidationError")%string;
  destruct (ErrorHandler.name err =? "SequelizeUniqueConstraintError")%string;
  destruct (ErrorHandler.name err =? "SequelizeForeignKeyConstraintError")%string;
  destruct (ErrorHandler.name err =? "JsonWebTokenError")%string;
  destruct (ErrorHandler.name err =? "TokenExpiredError")%string;
  destruct (ErrorHandler.codeIs err "LIMIT_FILE_SIZE");
  destruct (ErrorHandler.codeIs err "LIMIT_UNEXPECTED_FILE");
  destruct (ErrorHandler.statusIs err 429);
  destruct (ErrorHandler.name err =? "CastError")%string.

Lemma translate_status (err : ErrorHandler.Err) (error : ErrorHandler.Translated) :
  ErrorHandler.translate err = Some error ->
  ErrorHandler.statusOr500 error = Spec.statusOf err.
Proof.
  unfold ErrorHandler.translate, Spec.statusOf, ErrorHandler.copyOf.
  destruct (ErrorHandler.errors err) as [items|];
    split_tests err; cbn; intros E;
    try discriminate; injection E as <-; reflexivity.
Qed.

Lemma translate_total (err : ErrorHandler.Err) :
  Spec.readsErrors err = false \/ ErrorHandler.errors err <> None ->
  exists error, ErrorHandler.translate err = Some error.
Proof.
  unfold ErrorHandler.translate, Spec.readsErrors.
  intros [H|H].
  - apply orb_false_iff in H. destruct H as [-> ->]. cbn. eauto.
  - destruct (ErrorHandler.errors err) as [items|]; [|contradiction].
    destruct (ErrorHandler.name err =? "SequelizeValidationError")%string;
      destruct (ErrorHandler.name err =? "SequelizeUniqueConstraintError")%string;
      cbn; eauto.
Qed.

Lemma errorHandler_run nodeEnv err req (c : JS.Clock) :
  JS.run (ErrorHandler.errorHandler nodeEnv err req) c =
  match ErrorHandler.translate err with
  | None => None
  | Some error =>
      let dev := match nodeEnv with
                 | Some e => (e =? "development")%string
                 | None => false
                 end in
      Some (ErrorHandler.mkResponse (ErrorHandler.statusOr500 error)
              (ErrorHandler.mkBody false (ErrorHandler.messageOrDefault error)
                 (if dev then ErrorHandler.stack err else None)
                 (if dev then Some error else None)
                 (ErrorHandler.translatedErrors error)
                 (JS.reading c 1) (ErrorHandler.originalUrl req)
                 (ErrorHandler.method req)))
  end.
Proof.
  unfold ErrorHandler.errorHandler, JS.reading. rewrite Nat.add_1_r, run_bind.
  destruct (ErrorHandler.translate err); reflexivity.
Qed.

Lemma statusOf_named (err : ErrorHandler.Err) :
  ErrorHandler.code err = None ->
  ErrorHandler.status err = None ->
  In (ErrorHandler.name err)
     ["SequelizeValidationError"; "SequelizeUniqueConstraintError";
      "SequelizeForeignKeyConstraintError"; "JsonWebTokenError";
      "TokenExpiredError"] ->
  Spec.statusOf err = Spec.statusByName (ErrorHandler.name err).
Proof.
  unfold Spec.statusOf, ErrorHandler.codeIs, ErrorHandler.statusIs.
  intros -> -> H. cbn in H.
  repeat (destruct H as [<-|H]; [reflexivity|]). contradiction.
Qed.

(** C9, as stated, fails: a ['CastError'] is none of the five named errors
    and is answered with 400, a rate-limit error with 429 and an error that
    carries [statusCode] 404 with 404, where the claim has 500. *)
Lemma C9_other_errors_not_500 :
  option_map ErrorHandler.httpStatus
    (JS.run (ErrorHandler.errorHandler None Samples.castError Samples.req)
            (Samples.hourly Samples.jan30_10h))
  <> Some (Spec.statusByName (ErrorHandler.name Samples.castError)) /\
  option_map ErrorHandler.httpStatus
    (JS.run (ErrorHandler.errorHandler None Samples.rateLimited Samples.req)
            (Samples.hourly Samples.jan30_10h))
  <> Some (Spec.statusByName (ErrorHandler.name Samples.rateLimited)) /\
  option_map ErrorHandler.httpStatus
    (JS.run (ErrorHandler.errorHandler None Samples.notFound Samples.req)
            (Samples.hourly Samples.jan30_10h))
  <> Some (Spec.statusByName (ErrorHandler.name Samples.notFound)).
Proof.
  repeat split; vm_compute; discriminate.
Qed.

(** C9, amended. Every response the handler sends has the status
    [Spec.statusOf]: SequelizeValidationError 400,
    SequelizeUniqueConstraintError 409, SequelizeForeignKeyConstraintError
    400, JsonWebTokenError and TokenExpiredError 401, unless a Multer code
    (400), a rate-limit status (429) or the name CastError (400) overrides
    it, and for every other error its own non-zero statusCode, or 500 when
    it has none; for the five named errors without Multer code and
    rate-limit status this is the status the specification gives by name.
    The response carries success:false and a non-empty message, and it is
    sent whenever the error has its [errors] array or is not one of the two
    errors whose items the handler reads. *)
Theorem C9_error_translation (nodeEnv : option string)
    (err : ErrorHandler.Err) (req : ErrorHandler.Req) (c : JS.Clock) :
  (forall resp,
     JS.run (ErrorHandler.errorHandler nodeEnv err req) c = Some resp ->
     ErrorHandler.httpStatus resp = Spec.statusOf err /\
     ErrorHandler.success (ErrorHandler.json resp) = false /\
     ErrorHandler.bodyMessage (ErrorHandler.json resp) <> "" /\
     (ErrorHandler.code err = None ->
      ErrorHandler.status err = None ->
      In (ErrorHandler.name err)
         ["SequelizeValidationError"; "SequelizeUniqueConstraintError";
          "SequelizeForeignKeyConstraintError"; "JsonWebTokenError";
          "TokenExpiredError"] ->
      ErrorHandler.httpStatus resp = Spec.statusByName (ErrorHandler.name err)))
  /\
  (Spec.readsErrors err = false \/ ErrorHandler.errors err <> None ->
   exists resp,
     JS.run (ErrorHandler.errorHandler nodeEnv err req) c = Some resp).
Proof.
  rewrite errorHandler_run. split.
  - intros resp.
    destruct (ErrorHandler.translate err) as [error|] eqn:E; [|discriminate].
    intros R. injection R as <-. cbn.
    split; [apply translate_status; assumption|].
    split; [reflexivity|].
    split; [apply messageOrDefault_nonempty|].
    intros Hc Hs Hn. rewrite <- (statusOf_named err Hc Hs Hn).
    apply translate_status; assumption.
  - intros H. destruct (translate_total err H) as [error ->]. eauto.
Qed.

(** ** Payment: invoice numbering *)

(** What the invoice block computes, for a payment that comes without an
    invoice number: the formatted year, month and count of the query. *)
Lemma assignInvoiceNumber_format (table : list Payment.t) (p : Payment.t)
    (c : JS.Clock) :
  JS.truthy (Payment.invoiceNumber p) = false ->
  let date := JS.reading c 0 in
  let count :=
    Payment.countCreatedBetween
      (JS.newDateYMD (JS.getFullYear date) (JS.getMonth date) 1)
      (JS.newDateYMD (JS.getFullYear date) (JS.getMonth date + 1) 0) table in
  Payment.invoiceNumber (JS.run (Payment.assignInvoiceNumber table p) c) =
  Some ("INV-" ++ JS.toString (JS.getFullYear date)
          ++ JS.padStart 2 (JS.toString (JS.getMonth date + 1)) ++ "-"
          ++ JS.padStart 4 (JS.toString (count + 1))).
Proof.
  intros H. unfold Payment.assignInvoiceNumber, JS.reading.
  rewrite H, Nat.add_0_r. reflexivity.
Qed.

(** Of the rows created in the calendar month of [date], the hook's query
    counts those created up to the midnight that opens the month's last
    day, and no later one. *)
Lemma counted_in_month_iff (date c : Z) :
  let y := JS.getFullYear date in
  let m := JS.getMonth date in
  y < 0 \/ 99 < y ->
  JS.getFullYear c = y ->
  JS.getMonth c = m ->
  (JS.newDateYMD y m 1 <=? c) && (c <=? JS.newDateYMD y (m + 1) 0) = true <->
  c <= JS.newDateYMD y (m + 1) 1 - JS.msPerDay.
Proof.
  cbv zeta. intros Hy Ey Em.
  destruct (month_bounds c) as [_ Hc]. cbv zeta in Hc.
  rewrite Ey, Em in Hc. specialize (Hc Hy).
  rewrite query_upper_bound, andb_true_iff, !Z.leb_le. lia.
Qed.

(** Two creations in a row on 2024-01-30 are numbered 0001 and 0002. *)
Example create_twice_jan30 :
  let c := Samples.hourly Samples.jan30_10h in
  let first := Payment.create None [] (Samples.pending None) in
  match JS.run first c with
  | inr (row1, table1) =>
      Payment.invoiceNumber row1 = Some "INV-202401-0001" /\
      match JS.run (Payment.create None table1 (Samples.pending None))
                   (JS.after first c) with
      | inr (row2, _) => Payment.invoiceNumber row2 = Some "INV-202401-0002"
      | inl _ => False
      end
  | inl _ => False
  end.
Proof. vm_compute. split; reflexivity. Qed.

(** C3 fails on the last day of a month.  On 2024-01-31 a first payment is
    created at 10:00 and numbered INV-202401-0001.  At the next creation,
    one hour later in the same month, the hook's query stops at the
    midnight that opens the 31st, counts 0 payments instead of 1, assigns
    INV-202401-0001 again, and the insert is refused as a duplicate. *)
Theorem C3_month_end_collision :
  let c := Samples.hourly Samples.jan31_10h in
  let values := Samples.pending None in
  let first := Payment.create None [] values in
  exists row1,
    JS.run first c = inr (row1, [row1]) /\
    Payment.createdAt row1 = Some Samples.jan31_10h /\
    Payment.invoiceNumber row1 = Some "INV-202401-0001" /\
    let c1 := JS.after first c in
    let date := JS.reading c1 1 in
    JS.getFullYear date = 2024 /\ JS.getMonth date = 0 /\
    JS.newDateYMD 2024 (0 + 1) 0 = Samples.jan31_10h - 10 * 3600000 /\
    Payment.countCreatedBetween
      (JS.newDateYMD 2024 0 1) (JS.newDateYMD 2024 (0 + 1) 0) [row1] = 0 /\
    Payment.invoiceNumber (JS.run (Payment.beforeCreate None [row1] values) c1)
      = Some "INV-202401-0001" /\
    JS.run (Payment.create None [row1] values) c1
      = inl "SequelizeUniqueConstraintError".
Proof.
  eexists. split; [vm_compute; reflexivity|].
  vm_compute. repeat split; reflexivity.
Qed.

(** ** Instances

    Each property that speaks under a condition, applied to a concrete
    record and clock that meet it. *)

Lemma C1_isOverdue_iff_witness :
  JS.run (Payment.isOverdue (Samples.pending (Some Samples.jan30_10h)))
         (Samples.hourly Samples.jan31_10h) = true.
Proof.
  apply (proj2 (C1_isOverdue_iff (Samples.pending (Some Samples.jan30_10h))
                  (Samples.hourly Samples.jan31_10h))).
  split; [discriminate|].
  exists Samples.jan30_10h. split; reflexivity.
Defined.

Lemma C4_canJoin_iff_witness :
  Session.canJoin (Session.mk "scheduled" 1 0) = true.
Proof.
  apply (proj2 (proj1 (C4_canJoin_iff (Session.mk "scheduled" 1 0)))).
  split; reflexivity.
Defined.

Lemma C5_getDaysOverdue_witness :
  (JS.run (Payment.isOverdue (Samples.pending (Some Samples.jan30_10h)))
          (Samples.hourly (Samples.jan30_10h + 3600000)) = true /\
   JS.run (Payment.getDaysOverdue (Samples.pending (Some Samples.jan30_10h)))
          (Samples.hourly (Samples.jan30_10h + 3600000)) = 1) /\
  JS.run (Payment.getDaysOverdue (Samples.completed (Some Samples.jan30_10h)))
         (Samples.hourly Samples.jan31_10h) = 0.
Proof.
  split.
  - pose proof (proj2 (proj2 (C5_getDaysOverdue
                                (Samples.pending (Some Samples.jan30_10h))
                                (Samples.hourly (Samples.jan30_10h + 3600000))))
                  Samples.jan30_10h eq_refl eq_refl eq_refl) as [Ho [Hd _]].
    split; [exact Ho|]. apply (proj2 Hd). split; [reflexivity | discriminate].
  - apply (proj1 (proj2 (C5_getDaysOverdue
                           (Samples.completed (Some Samples.jan30_10h))
                           (Samples.hourly Samples.jan31_10h)))).
    reflexivity.
Defined.

Lemma C10_no_dueDate_witness :
  JS.run (Payment.isOverdue (Samples.pending None))
         (Samples.hourly Samples.jan31_10h) = false /\
  JS.run (Payment.getDaysOverdue (Samples.pending None))
         (Samples.hourly Samples.jan31_10h) = 0.
Proof.
  apply (C10_no_dueDate (Samples.pending None)
           (Samples.hourly Samples.jan31_10h)).
  reflexivity.
Defined.

Lemma C7_dev_mode_override_witness :
  exists row table',
    JS.run (Payment.create (Some "dev") [] (Samples.pending None))
           (Samples.hourly Samples.jan30_10h) = inr (row, table') /\
    Payment.status row = "completed" /\
    Payment.amount row = 0 /\
    Payment.paymentMethod row = "dev_mode".
Proof.
  eexists. eexists. split; [vm_compute; reflexivity|].
  eapply (proj2 (C7_dev_mode_override [] (Samples.pending None)
                   (Samples.hourly Samples.jan30_10h))).
  vm_compute. reflexivity.
Defined.

Lemma C9_error_translation_witness :
  exists resp,
    JS.run (ErrorHandler.errorHandler (Some "production") Samples.duplicate
              Samples.req)
           (Samples.hourly Samples.jan30_10h) = Some resp /\
    ErrorHandler.httpStatus resp = 409 /\
    ErrorHandler.success (ErrorHandler.json resp) = false /\
    ErrorHandler.bodyMessage (ErrorHandler.json resp) <> "".
Proof.
  assert (He : Spec.readsErrors Samples.duplicate = false \/
               ErrorHandler.errors Samples.duplicate <> None)
    by (right; discriminate).
  pose proof (C9_error_translation (Some "production") Samples.duplicate
                Samples.req (Samples.hourly Samples.jan30_10h)) as [Hsent Hex].
  specialize (Hex He). destruct Hex as [resp R].
  exists resp. split; [exact R|].
  specialize (Hsent resp R). destruct Hsent as (Hs & Hok & Hm & Hn).
  split; [|split; assumption].
  rewrite (Hn eq_refl eq_refl (or_intror (or_introl eq_refl))). reflexivity.
Defined.

Lemma C2_refund_stores_amount_witness :
  Spec.refundedInvariant
    (JS.run (Payment.refund 2500 (Some "partial refund")
               (Samples.completed None))
            (Samples.hourly Samples.jan30_10h)).
Proof.
  apply (proj2 (proj2 (proj2 (proj2 (proj2
           (C2_refund_stores_amount (Samples.completed None) 2500
              (Some "partial refund") (Samples.hourly Samples.jan30_10h))))))).
  discriminate.
Defined.

(** * Further properties *)

(** ** Ordered query results *)

Section OrderBy.

Context {A : Type} (key : A -> Z).

Let keyLe (x y : A) : Prop := key x <= key y.

Lemma insertBy_perm (x : A) (l : list A) :
  Permutation (x :: l) (Orm.insertBy key x l).
Proof.
  induction l as [|y l IH]; cbn; [reflexivity|].
  destruct (key x <=? key y); [reflexivity|].
  rewrite perm_swap. apply perm_skip. exact IH.
Qed.

Lemma orderAsc_perm (l : list A) : Permutation l (Orm.orderAsc key l).
Proof.
  induction l as [|x l IH]; cbn; [constructor|].
  rewrite <- insertBy_perm. apply perm_skip. exact IH.
Qed.

Lemma insertBy_sorted (x : A) (l : list A) :
  Sorted keyLe l -> Sorted keyLe (Orm.insertBy key x l).
Proof.
  induction l as [|y l IH]; cbn; intros Hs.
  - repeat constructor.
  - destruct (Z.leb_spec (key x) (key y)) as [Hle|Hgt].
    + constructor; [assumption | constructor; exact Hle].
    + inversion Hs as [|? ? Hs' Hhd]; subst.
      constructor; [apply IH; assumption|].
      destruct l as [|z l]; cbn.
      * constructor. unfold keyLe. lia.
      * destruct (key x <=? key z); constructor; unfold keyLe.
        -- lia.
        -- inversion Hhd; subst. assumption.
Qed.

Lemma orderAsc_sorted (l : list A) : Sorted keyLe (Orm.orderAsc key l).
Proof.
  induction l as [|x l IH]; cbn; [constructor | apply insertBy_sorted, IH].
Qed.

Lemma orderAsc_In (x : A) (l : list A) : In x (Orm.orderAsc key l) <-> In x l.
Proof.
  split; apply Permutation_in;
    [symmetry|]; apply orderAsc_perm.
Qed.

End OrderBy.

Lemma orderDesc_In {A : Type} (key : A -> Z) (x : A) (l : list A) :
  In x (Orm.orderDesc key l) <-> In x l.
Proof. apply orderAsc_In. Qed.

Lemma orderDesc_sorted {A : Type} (key : A -> Z) (l : list A) :
  Sorted (fun x y => key y <= key x) (Orm.orderDesc key l).
Proof.
  unfold Orm.orderDesc.
  pose proof (orderAsc_sorted (fun x => - key x) l) as H.
  induction H as [|x l' Hs IH Hhd]; constructor; [assumption|].
  destruct Hhd as [|y l'' Hle]; constructor. cbv beta in Hle. lia.
Qed.

(** ** Payment: finders *)

Lemma dateIs_true (test : Z -> bool) (column : option Z) :
  Orm.dateIs test column = true <-> exists v, column = Some v /\ test v = true.
Proof.
  destruct column as [v|]; cbn.
  - split; [eauto | intros [w [E H]]; injection E as ->; exact H].
  - split; [discriminate | intros [w [E _]]; discriminate].
Qed.

Lemma findOverdue_run (table : list PaymentFinders.Row) (c : JS.Clock) :
  let found := JS.run (PaymentFinders.findOverdue table) c in
  (forall r,
     In r found <->
     In r table /\
     Payment.status (PaymentFinders.payment r) = "pending" /\
     exists due,
       Payment.dueDate (PaymentFinders.payment r) = Some due /\
       due < JS.reading c 0) /\
  Sorted (fun a b => PaymentFinders.dueKey a <= PaymentFinders.dueKey b) found.
Proof.
  cbv zeta. unfold PaymentFinders.findOverdue, JS.run, JS.reading. cbn.
  rewrite Nat.add_0_r. split.
  - intros r. rewrite orderAsc_In, filter_In, andb_true_iff, String.eqb_eq,
      dateIs_true.
    split.
    + intros (Hin & Hs & due & Hd & Hlt). apply Z.ltb_lt in Hlt. eauto 6.
    + intros (Hin & Hs & due & Hd & Hlt). apply Z.ltb_lt in Hlt. eauto 6.
  - apply orderAsc_sorted.
Qed.

(** X1. [findOverdue] returns exactly the stored rows that are pending and
    due strictly before the reading it takes, earliest due date first. *)
Theorem findOverdue_members (table : list PaymentFinders.Row) (c : JS.Clock) :
  let found := JS.run (PaymentFinders.findOverdue table) c in
  (forall r,
     In r found <->
     In r table /\
     Payment.status (PaymentFinders.payment r) = "pending" /\
     exists due,
       Payment.dueDate (PaymentFinders.payment r) = Some due /\
       due < JS.reading c 0) /\
  Sorted (fun a b => PaymentFinders.dueKey a <= PaymentFinders.dueKey b) found.
Proof. exact (findOverdue_run table c). Qed.

(** X2. Every payment [findOverdue] returns is overdue for [isOverdue] too,
    at any later reading of the clock. *)
Theorem findOverdue_isOverdue (table : list PaymentFinders.Row)
    (c c' : JS.Clock) (r : PaymentFinders.Row) :
  JS.reading c 0 <= JS.reading c' 0 ->
  In r (JS.run (PaymentFinders.findOverdue table) c) ->
  JS.run (Payment.isOverdue (PaymentFinders.payment r)) c' = true.
Proof.
  intros Hc Hin.
  apply (proj1 (findOverdue_run table c)) in Hin.
  destruct Hin as (_ & Hs & due & Hd & Hlt).
  rewrite isOverdue_run, Hd. unfold Payment.isCompleted. rewrite Hs. cbn.
  apply Z.ltb_lt. lia.
Qed.

(** X3. The converse fails by design of the query: a stored payment that is
    neither pending nor completed (processing, failed, refunded, cancelled)
    and past its due date is overdue for [isOverdue], and [findOverdue]
    never returns it. *)
Theorem findOverdue_skips_non_pending (table : list PaymentFinders.Row)
    (c : JS.Clock) (r : PaymentFinders.Row) (due : Z) :
  Payment.status (PaymentFinders.payment r) <> "pending" ->
  Payment.status (PaymentFinders.payment r) <> "completed" ->
  Payment.dueDate (PaymentFinders.payment r) = Some due ->
  due < JS.reading c 0 ->
  JS.run (Payment.isOverdue (PaymentFinders.payment r)) c = true /\
  ~ In r (JS.run (PaymentFinders.findOverdue table) c).
Proof.
  intros Hp Hc Hd Hlt. split.
  - rewrite isOverdue_run, Hd. unfold Payment.isCompleted.
    destruct (String.eqb_spec (Payment.status (PaymentFinders.payment r))
                "completed"); [contradiction|].
    cbn. apply Z.ltb_lt. exact Hlt.
  - intros Hin. apply (proj1 (findOverdue_run table c)) in Hin.
    destruct Hin as (_ & Hs & _). contradiction.
Qed.

Lemma satisfies_buildWhere (sid : string) (o : PaymentFinders.Options)
    (r : PaymentFinders.Row) :
  PaymentFinders.satisfies (PaymentFinders.buildWhere sid o) r = true <->
  PaymentFinders.studentId r = sid /\
  (forall s, PaymentFinders.status o = Some s -> s <> "" ->
             Payment.status (PaymentFinders.payment r) = s) /\
  (forall lo, PaymentFinders.startDate o = Some lo ->
              exists t, Payment.createdAt (PaymentFinders.payment r) = Some t /\
                        lo <= t) /\
  (forall hi, PaymentFinders.endDate o = Some hi ->
              exists t, Payment.createdAt (PaymentFinders.payment r) = Some t /\
                        t <= hi).
Proof.
  destruct o as [st sd ed].
  unfold PaymentFinders.satisfies, PaymentFinders.buildWhere, JS.truthy.
  cbn [PaymentFinders.status PaymentFinders.startDate PaymentFinders.endDate].
  assert (Hst : forall b : bool,
            (match st with
             | Some s => if negb (s =? "")%string
                         then (Payment.status (PaymentFinders.payment r) =? s)%string
                         else true
             | None => true
             end = true <->
             forall s, st = Some s -> s <> "" ->
                       Payment.status (PaymentFinders.payment r) = s)).
  { intros _. destruct st as [s|]; [|split; [discriminate | reflexivity]].
    destruct (String.eqb_spec s ""); cbn.
    - split; [intros _ s' E; injection E as <-; contradiction | reflexivity].
    - rewrite String.eqb_eq. split.
      + intros H s' E _. injection E as <-. exact H.
      + intros H. apply (H s eq_refl). assumption. }
  specialize (Hst true).
  assert (Hlo : forall lo,
            Orm.dateIs (fun t => lo <=? t)
              (Payment.createdAt (PaymentFinders.payment r)) = true <->
            exists t, Payment.createdAt (PaymentFinders.payment r) = Some t /\
                      lo <= t).
  { intros lo. rewrite dateIs_true. setoid_rewrite Z.leb_le. reflexivity. }
  assert (Hhi : forall hi,
            Orm.dateIs (fun t => t <=? hi)
              (Payment.createdAt (PaymentFinders.payment r)) = true <->
            exists t, Payment.createdAt (PaymentFinders.payment r) = Some t /\
                      t <= hi).
  { intros hi. rewrite dateIs_true. setoid_rewrite Z.leb_le. reflexivity. }
  rewrite <- Hst. clear Hst.
  destruct st as [s|]; [destruct (negb (s =? "")%string)|];
    destruct sd as [lo|]; destruct ed as [hi|]; cbn;
    rewrite ?andb_true_iff, ?andb_true_r, ?String.eqb_eq, ?Hlo, ?Hhi;
    (split;
     [ intros H; decompose [and] H; clear H; repeat split; auto;
       try (intros ? E; injection E as <-; assumption);
       try discriminate
     | intros (H1 & H2 & H3 & H4); repeat split; auto ]).
Qed.

Lemma findByStudent_In (sid : string) (o : PaymentFinders.Options)
    (table : list PaymentFinders.Row) (r : PaymentFinders.Row) :
  In r (PaymentFinders.findByStudent sid o table) <->
  In r table /\
  PaymentFinders.satisfies (PaymentFinders.buildWhere sid o) r = true.
Proof.
  unfold PaymentFinders.findByStudent. rewrite orderDesc_In, filter_In.
  reflexivity.
Qed.

(** X4. [findByStudent] returns exactly the student's stored rows that have
    the requested status (when a non-empty one is given) and were created
    within both requested bounds (each when given; the end date does not
    drop the start date), newest first. *)
Theorem findByStudent_members (sid : string) (o : PaymentFinders.Options)
    (table : list PaymentFinders.Row) :
  let found := PaymentFinders.findByStudent sid o table in
  (forall r,
     In r found <->
     In r table /\
     PaymentFinders.studentId r = sid /\
     (forall s, PaymentFinders.status o = Some s -> s <> "" ->
                Payment.status (PaymentFinders.payment r) = s) /\
     (forall lo, PaymentFinders.startDate o = Some lo ->
                 exists t, Payment.createdAt (PaymentFinders.payment r) = Some t /\
                           lo <= t) /\
     (forall hi, PaymentFinders.endDate o = Some hi ->
                 exists t, Payment.createdAt (PaymentFinders.payment r) = Some t /\
                           t <= hi)) /\
  Sorted (fun a b => PaymentFinders.createdKey b <= PaymentFinders.createdKey a)
         found.
Proof.
  cbv zeta. split.
  - intros r. rewrite findByStudent_In, satisfies_buildWhere. reflexivity.
  - apply orderDesc_sorted.
Qed.

(** ** Payment: how the lifecycle methods compose *)

Lemma isOverdue_true_iff (p : Payment.t) (c : JS.Clock) :
  JS.run (Payment.isOverdue p) c = true <->
  Payment.status p <> "completed" /\
  exists due, Payment.dueDate p = Some due /\ due < JS.reading c 0.
Proof.
  rewrite isOverdue_run. unfold Payment.isCompleted.
  destruct (Payment.dueDate p) as [due|].
  - rewrite andb_true_iff, negb_true_iff, Z.ltb_lt.
    destruct (String.eqb_spec (Payment.status p) "completed") as [E|E].
    + split; [intros [H _]; discriminate | intros [H _]; contradiction].
    + split.
      * intros [_ H]. split; [assumption | exists due; auto].
      * intros [_ [d [Hd H]]]. injection Hd as ->. auto.
  - split; [discriminate | intros [_ [d [Hd _]]]; discriminate].
Qed.

(** X5. Once [markAsCompleted] has run, the payment is never overdue:
    [isOverdue] is false and [getDaysOverdue] is 0 at every later time,
    whatever its due date. *)
Theorem markAsCompleted_ends_overdue tid gw (p : Payment.t) (c c' : JS.Clock) :
  let p' := JS.run (Payment.markAsCompleted tid gw p) c in
  JS.run (Payment.isOverdue p') c' = false /\
  JS.run (Payment.getDaysOverdue p') c' = 0.
Proof.
  cbv zeta. rewrite getDaysOverdue_run, isOverdue_run.
  cbn. destruct (Payment.dueDate p); split; reflexivity.
Qed.

(** X6. [refund] and [markAsFailed] keep the due date in force: after
    either, the payment is overdue exactly when its due date has passed,
    also when it had been completed before. *)
Theorem refund_and_failure_reopen_overdue (p : Payment.t) (a : Z)
    (reason gw : option string) (c c' : JS.Clock) :
  let passed := exists due, Payment.dueDate p = Some due /\ due < JS.reading c' 0 in
  (JS.run (Payment.isOverdue (JS.run (Payment.refund a reason p) c)) c' = true
   <-> passed) /\
  (JS.run (Payment.isOverdue (Payment.markAsFailed gw p)) c' = true
   <-> passed).
Proof.
  cbv zeta. rewrite !isOverdue_true_iff. cbn.
  split; (split; [intros [_ H]; exact H | intros H; split; [discriminate | exact H]]).
Qed.


(** X8. On a clock that does not run backwards between the two readings of
    [getDaysOverdue], the result is never negative and is at least 1
    exactly when the payment is overdue. *)
Theorem getDaysOverdue_positive_iff (p : Payment.t) (c : JS.Clock) :
  JS.reading c 0 <= JS.reading c 1 ->
  0 <= JS.run (Payment.getDaysOverdue p) c /\
  (1 <= JS.run (Payment.getDaysOverdue p) c <->
   JS.run (Payment.isOverdue p) c = true).
Proof.
  intros Hc. rewrite getDaysOverdue_run.
  destruct (JS.run (Payment.isOverdue p) c) eqn:E.
  - rewrite isOverdue_run in E.
    destruct (Payment.dueDate p) as [due|]; [|discriminate].
    apply andb_true_iff in E. destruct E as [_ E]. apply Z.ltb_lt in E.
    cbn [Payment.toDate].
    pose proof (ceilDiv_bounds (JS.reading c 1 - due) 86400000 ltac:(lia)).
    split; [lia | split; [reflexivity | lia]].
  - split; [lia | split; [lia | discriminate]].
Qed.

(** X9. The days overdue never go down as time passes: of two calls on
    the same payment, the one whose readings are later (on a clock that
    does not run backwards) returns at least as much. *)
Theorem getDaysOverdue_monotone (p : Payment.t) (c c' : JS.Clock) :
  JS.reading c 0 <= JS.reading c' 0 ->
  JS.reading c 1 <= JS.reading c' 1 ->
  JS.reading c' 0 <= JS.reading c' 1 ->
  JS.run (Payment.getDaysOverdue p) c <= JS.run (Payment.getDaysOverdue p) c'.
Proof.
  intros H0 H1 Hc'. rewrite !getDaysOverdue_run, !isOverdue_run.
  destruct (Payment.dueDate p) as [due|]; [|lia].
  destruct (Payment.isCompleted p); cbn [negb andb Payment.toDate]; [lia|].
  pose proof (ceilDiv_bounds (JS.reading c 1 - due) 86400000 ltac:(lia)).
  pose proof (ceilDiv_bounds (JS.reading c' 1 - due) 86400000 ltac:(lia)).
  destruct (Z.ltb_spec due (JS.reading c 0));
    destruct (Z.ltb_spec due (JS.reading c' 0)); lia.
Qed.

(** ** Payment: invoice numbers *)

Lemma beforeCreate_invoice (env : option string) (table : list Payment.t)
    (v : Payment.t) (c : JS.Clock) :
  JS.truthy (Payment.invoiceNumber v) = false ->
  let d := Invoice.hookDate env c in
  Payment.invoiceNumber (JS.run (Payment.beforeCreate env table v) c) =
  Some (Invoice.text (JS.getFullYear d) (JS.getMonth d)
          (Payment.countCreatedBetween
             (JS.newDateYMD (JS.getFullYear d) (JS.getMonth d) 1)
             (JS.newDateYMD (JS.getFullYear d) (JS.getMonth d + 1) 0) table
           + 1)).
Proof.
  intros Hv. cbv zeta.
  unfold Payment.beforeCreate, Invoice.hookDate, Invoice.text. rewrite run_bind.
  destruct env as [e|]; cbn [Payment.devOverride];
    [destruct (e =? "dev")%string|];
    (rewrite assignInvoiceNumber_format by exact Hv);
    unfold JS.reading, JS.after; cbn; rewrite ?Nat.add_0_r, ?Nat.add_1_r;
    reflexivity.
Qed.

Lemma count_app_one (lo hi : Z) (table : list Payment.t) (row : Payment.t) :
  Payment.countCreatedBetween lo hi (table ++ [row]) =
  Payment.countCreatedBetween lo hi table
  + (if Orm.dateIs (fun t => (lo <=? t) && (t <=? hi)) (Payment.createdAt row)
     then 1 else 0).
Proof.
  unfold Payment.countCreatedBetween, Orm.dateIs.
  rewrite filter_app, length_app, Nat2Z.inj_add. cbn [filter].
  destruct (Payment.createdAt row) as [t|]; [|reflexivity].
  destruct ((lo <=? t) && (t <=? hi)); reflexivity.
Qed.

Lemma count_app_counted (lo hi t : Z) (table : list Payment.t)
    (row : Payment.t) :
  Payment.createdAt row = Some t ->
  lo <= t <= hi ->
  Payment.countCreatedBetween lo hi (table ++ [row]) =
  Payment.countCreatedBetween lo hi table + 1.
Proof.
  intros Ht [Hlo Hhi]. rewrite count_app_one, Ht. cbn [Orm.dateIs].
  apply Z.leb_le in Hlo, Hhi. rewrite Hlo, Hhi. reflexivity.
Qed.

(** X10. Within one calendar month the sequence advances with the stored
    rows the query sees: if a row created inside the query's window (from
    the first instant of the month to the midnight that opens its last
    day) has been stored in between, the later creation gets the earlier
    creation's sequence number plus one. *)
Theorem invoice_sequence_advances (env : option string)
    (table : list Payment.t) (row v v' : Payment.t) (c c' : JS.Clock)
    (t : Z) :
  JS.truthy (Payment.invoiceNumber v) = false ->
  JS.truthy (Payment.invoiceNumber v') = false ->
  let d := Invoice.hookDate env c in
  let d' := Invoice.hookDate env c' in
  JS.getFullYear d' = JS.getFullYear d ->
  JS.getMonth d' = JS.getMonth d ->
  Payment.createdAt row = Some t ->
  JS.newDateYMD (JS.getFullYear d) (JS.getMonth d) 1 <= t
    <= JS.newDateYMD (JS.getFullYear d) (JS.getMonth d + 1) 0 ->
  exists n,
    1 <= n /\
    Payment.invoiceNumber (JS.run (Payment.beforeCreate env table v) c) =
      Some (Invoice.text (JS.getFullYear d) (JS.getMonth d) n) /\
    Payment.invoiceNumber
      (JS.run (Payment.beforeCreate env (table ++ [row]) v') c') =
      Some (Invoice.text (JS.getFullYear d) (JS.getMonth d) (n + 1)).
Proof.
  intros Hv Hv'. cbv zeta. intros Hy Hm Ht Hin.
  pose proof (beforeCreate_invoice env (table ++ [row]) v' c' Hv') as E'.
  pose proof (beforeCreate_invoice env table v c Hv) as E.
  cbv zeta in E, E'. rewrite Hy, Hm in E'.
  rewrite (count_app_counted _ _ t table row Ht Hin) in E'.
  eexists. split; [|split; [exact E | exact E']].
  unfold Payment.countCreatedBetween. lia.
Qed.

(** X11. A row created in the same calendar month but after the midnight
    that opens its last day is outside the query's window: storing it does
    not advance the sequence, and the next creation of that month is given
    the same invoice number again. *)
Theorem invoice_sequence_stalls_on_last_day (env : option string)
    (table : list Payment.t) (row v v' : Payment.t) (c c' : JS.Clock)
    (t : Z) :
  JS.truthy (Payment.invoiceNumber v) = false ->
  JS.truthy (Payment.invoiceNumber v') = false ->
  let d := Invoice.hookDate env c in
  let d' := Invoice.hookDate env c' in
  JS.getFullYear d' = JS.getFullYear d ->
  JS.getMonth d' = JS.getMonth d ->
  Payment.createdAt row = Some t ->
  JS.newDateYMD (JS.getFullYear d) (JS.getMonth d + 1) 1 - JS.msPerDay < t ->
  Payment.invoiceNumber
    (JS.run (Payment.beforeCreate env (table ++ [row]) v') c') =
  Payment.invoiceNumber (JS.run (Payment.beforeCreate env table v) c).
Proof.
  intros Hv Hv'. cbv zeta. intros Hy Hm Ht Hlate.
  pose proof (beforeCreate_invoice env (table ++ [row]) v' c' Hv') as E'.
  pose proof (beforeCreate_invoice env table v c Hv) as E.
  cbv zeta in E, E'. rewrite Hy, Hm in E'. rewrite E, E'. clear E E'.
  set (d := Invoice.hookDate env c) in *. clearbody d.
  assert (Hcount :
    Payment.countCreatedBetween
      (JS.newDateYMD (JS.getFullYear d) (JS.getMonth d) 1)
      (JS.newDateYMD (JS.getFullYear d) (JS.getMonth d + 1) 0) (table ++ [row]) =
    Payment.countCreatedBetween
      (JS.newDateYMD (JS.getFullYear d) (JS.getMonth d) 1)
      (JS.newDateYMD (JS.getFullYear d) (JS.getMonth d + 1) 0) table).
  { rewrite count_app_one, Ht. cbn [Orm.dateIs].
    rewrite query_upper_bound.
    replace (t <=? _) with false by (symmetry; apply Z.leb_gt; lia).
    rewrite andb_false_r. apply Z.add_0_r. }
  rewrite Hcount. reflexivity.
Qed.

Lemma forallFrom_spec (f : Z -> bool) (n : nat) :
  forall lo, Invoice.forallFrom f lo n = true ->
  forall z, lo <= z < lo + Z.of_nat n -> f z = true.
Proof.
  induction n as [|n IH]; intros lo H z Hz; [lia|].
  cbn [Invoice.forallFrom] in H. apply andb_true_iff in H. destruct H as [H0 H].
  destruct (Z.eq_dec z lo) as [->|Hne]; [exact H0|].
  apply (IH (lo + 1) H). lia.
Qed.

Lemma year_digits (y : Z) :
  1000 <= y <= 9999 -> Invoice.digitsOfLength 4 (JS.toString y) = true.
Proof.
  intros H.
  apply (forallFrom_spec (fun y => Invoice.digitsOfLength 4 (JS.toString y))
           (Z.to_nat 9000) 1000);
    [vm_compute; reflexivity | rewrite Z2Nat.id by lia; lia].
Qed.

Lemma month_digits (m : Z) :
  0 <= m <= 11 ->
  Invoice.digitsOfLength 2 (JS.padStart 2 (JS.toString (m + 1))) = true.
Proof.
  intros H.
  apply (forallFrom_spec
           (fun m => Invoice.digitsOfLength 2 (JS.padStart 2 (JS.toString (m + 1))))
           (Z.to_nat 12) 0);
    [vm_compute; reflexivity | rewrite Z2Nat.id by lia; lia].
Qed.

Lemma sequence_digits (n : Z) :
  0 <= n <= 9999 ->
  Invoice.digitsOfLength 4 (JS.padStart 4 (JS.toString n)) = true.
Proof.
  intros H.
  apply (forallFrom_spec
           (fun n => Invoice.digitsOfLength 4 (JS.padStart 4 (JS.toString n)))
           (Z.to_nat 10000) 0);
    [vm_compute; reflexivity | rewrite Z2Nat.id by lia; lia].
Qed.

Ltac explode s :=
  repeat match goal with
         | H : Invoice.digitsOfLength _ s = true |- _ =>
             unfold Invoice.digitsOfLength in H;
             apply andb_true_iff in H; destruct H as [?Hlen ?Hdig]
         end;
  repeat (destruct s as [|? s]; try discriminate).

Lemma assembled_format (ys ms ns : string) :
  Invoice.digitsOfLength 4 ys = true ->
  Invoice.digitsOfLength 2 ms = true ->
  Invoice.digitsOfLength 4 ns = true ->
  Invoice.matchesFormat ("INV-" ++ ys ++ ms ++ "-" ++ ns) = true.
Proof.
  intros Hy Hm Hn. explode ys. explode ms. explode ns.
  cbn in Hdig, Hdig0, Hdig1.
  rewrite !andb_true_r in *.
  repeat match goal with
         | H : _ && _ = true |- _ => apply andb_true_iff in H; destruct H
         end.
  unfold Invoice.matchesFormat. cbn.
  repeat match goal with
         | H : Invoice.isDigit _ = true |- _ => rewrite H; clear H
         end.
  reflexivity.
Qed.

(** X12. While the clock's year has four digits and the query counts at
    most 9998 rows, the generated invoice number has the form
    INV-YYYYMM-NNNN: fifteen characters, six digits after the prefix, a
    dash and four digits. *)
Theorem invoice_matches_format (env : option string) (table : list Payment.t)
    (v : Payment.t) (c : JS.Clock) :
  JS.truthy (Payment.invoiceNumber v) = false ->
  let d := Invoice.hookDate env c in
  1000 <= JS.getFullYear d <= 9999 ->
  Payment.countCreatedBetween
    (JS.newDateYMD (JS.getFullYear d) (JS.getMonth d) 1)
    (JS.newDateYMD (JS.getFullYear d) (JS.getMonth d + 1) 0) table <= 9998 ->
  exists inv,
    Payment.invoiceNumber (JS.run (Payment.beforeCreate env table v) c)
      = Some inv /\
    Invoice.matchesFormat inv = true.
Proof.
  intros Hv. cbv zeta. intros Hy Hcount.
  eexists. split; [apply beforeCreate_invoice; exact Hv|].
  cbv zeta. unfold Invoice.text.
  apply assembled_format.
  - apply year_digits. exact Hy.
  - apply month_digits. apply (month_bounds (Invoice.hookDate env c)).
  - apply sequence_digits. unfold Payment.countCreatedBetween in *. lia.
Qed.

(** ** Session: schedule *)

(** X13. [isRecurringActive] holds exactly for a recurring session with an
    end date that the current time has not passed; at the end instant
    itself the session still counts as active. *)
Theorem isRecurringActive_iff (s : SessionSchedule.t) (c : JS.Clock) :
  JS.run (SessionSchedule.isRecurringActive s) c = true <->
  SessionSchedule.isRecurring s = true /\
  exists end_, SessionSchedule.recurringEndDate s = Some end_ /\
               JS.reading c 0 <= end_.
Proof.
  unfold SessionSchedule.isRecurringActive, JS.run, JS.reading.
  rewrite Nat.add_0_r.
  destruct (SessionSchedule.isRecurring s); cbn.
  - destruct (SessionSchedule.recurringEndDate s) as [e|]; cbn.
    + rewrite Z.leb_le. split.
      * intros H. split; [reflexivity | exists e; auto].
      * intros [_ [e' [E H]]]. injection E as ->. exact H.
    + split; [discriminate | intros [_ [e' [E _]]]; discriminate].
  - split; [discriminate | intros [E _]; discriminate].
Qed.

(** X14. The two custom validators compare dates, and a comparison with
    an Invalid Date is false.  [isAfterNow] lets a start time pass exactly
    when it is no valid date or lies strictly after the current time;
    [isAfterStart] lets an end time pass exactly unless the instance has a
    start time and both are valid dates with the end not after the start.
    So a session whose times are valid dates and pass both starts and ends
    in the future, while an Invalid Date passes both validators. *)
Theorem validators_pass_iff (thisStart : option SessionSchedule.DateValue)
    (start end_ : SessionSchedule.DateValue) (c : JS.Clock) :
  (JS.run (SessionSchedule.isAfterNow start) c = None <->
   forall v, start = Some v -> JS.reading c 0 < v) /\
  (SessionSchedule.isAfterStart thisStart end_ = None <->
   forall st e, thisStart = Some (Some st) -> end_ = Some e -> st < e) /\
  (forall s e,
     start = Some s -> end_ = Some e -> thisStart = Some start ->
     JS.run (SessionSchedule.isAfterNow start) c = None ->
     SessionSchedule.isAfterStart thisStart end_ = None ->
     JS.reading c 0 < s < e) /\
  (JS.run (SessionSchedule.isAfterNow None) c = None /\
   SessionSchedule.isAfterStart thisStart None = None /\
   SessionSchedule.isAfterStart (Some None) end_ = None).
Proof.
  assert (H1 : JS.run (SessionSchedule.isAfterNow start) c = None <->
               forall v, start = Some v -> JS.reading c 0 < v).
  { unfold SessionSchedule.isAfterNow, JS.run, JS.reading. cbn.
    rewrite Nat.add_0_r. destruct start as [v|]; cbn.
    - destruct (Z.leb_spec v (JS.timeline c (JS.taken c))).
      + split; [discriminate | intros Hall; specialize (Hall v eq_refl); lia].
      + split; [intros _ v' E; injection E as <-; assumption | reflexivity].
    - split; [intros _ v E; discriminate | reflexivity]. }
  assert (H2 : SessionSchedule.isAfterStart thisStart end_ = None <->
               forall st e, thisStart = Some (Some st) -> end_ = Some e ->
                            st < e).
  { unfold SessionSchedule.isAfterStart, SessionSchedule.dateLe.
    destruct thisStart as [[st|]|]; destruct end_ as [e|];
      try (split; [intros _ st' e' E E'; discriminate | reflexivity]).
    destruct (Z.leb_spec e st).
    - split; [discriminate |].
      intros Hall. specialize (Hall st e eq_refl eq_refl). lia.
    - split; [|reflexivity].
      intros _ st' e' E E'. injection E as <-. injection E' as <-.
      assumption. }
  split; [exact H1 | split; [exact H2 | split]].
  - intros s e Hs He Ht Hn Ha. split.
    + apply (proj1 H1 Hn s Hs).
    + apply (proj1 H2 Ha s e); [rewrite Ht, Hs; reflexivity | exact He].
  - split; [reflexivity | split].
    + destruct thisStart as [[st|]|]; reflexivity.
    + destruct end_; reflexivity.
Qed.


Lemma findUpcoming_run (table : list SessionSchedule.t) (c : JS.Clock)
    (s : SessionSchedule.t) :
  In s (JS.run (SessionSchedule.findUpcoming table) c) <->
  In s table /\
  Session.status (SessionSchedule.session s) = "scheduled" /\
  exists start, SessionSchedule.startTime s = Some start /\
                JS.reading c 0 < start.
Proof.
  unfold SessionSchedule.findUpcoming, JS.run, JS.reading. cbn.
  rewrite Nat.add_0_r, orderAsc_In, filter_In, andb_true_iff, String.eqb_eq,
    dateIs_true.
  split.
  - intros (Hin & (start & Hs & Hgt) & Hst).
    rewrite Z.gtb_ltb in Hgt. apply Z.ltb_lt in Hgt. eauto 6.
  - intros (Hin & Hst & start & Hs & Hgt).
    repeat split; try assumption. exists start.
    rewrite Z.gtb_ltb. split; [assumption | apply Z.ltb_lt; assumption].
Qed.

(** X15. [findUpcoming] returns exactly the stored sessions that are
    scheduled and start strictly after the reading it takes, earliest
    start first; such a session can be joined exactly when it has a free
    place. *)
Theorem findUpcoming_members (table : list SessionSchedule.t) (c : JS.Clock) :
  let found := JS.run (SessionSchedule.findUpcoming table) c in
  (forall s,
     In s found <->
     In s table /\
     Session.status (SessionSchedule.session s) = "scheduled" /\
     exists start, SessionSchedule.startTime s = Some start /\
                   JS.reading c 0 < start) /\
  Sorted (fun a b => SessionSchedule.startKey a <= SessionSchedule.startKey b)
         found /\
  (forall s,
     In s found ->
     (Session.canJoin (SessionSchedule.session s) = true <->
      Session.currentStudents (SessionSchedule.session s)
        < Session.maxStudents (SessionSchedule.session s))).
Proof.
  cbv zeta. split; [intros s; apply findUpcoming_run|]. split.
  - unfold SessionSchedule.findUpcoming, JS.run. cbn. apply orderAsc_sorted.
  - intros s Hin. apply findUpcoming_run in Hin. destruct Hin as (_ & Hst & _).
    unfold Session.canJoin, Session.isFull. rewrite Hst. cbn.
    rewrite negb_true_iff, Z.geb_leb, Z.leb_gt. reflexivity.
Qed.

(** ** Attendance: duration *)

Lemma roundDiv_bounds (a b : Z) :
  0 < b ->
  2 * b * AttendanceDuration.roundDiv a b - b <= 2 * a
    < 2 * b * AttendanceDuration.roundDiv a b + b.
Proof.
  intros Hb. unfold AttendanceDuration.roundDiv.
  pose proof (Z.mul_div_le (2 * a + b) (2 * b) ltac:(lia)).
  pose proof (Z.mul_succ_div_gt (2 * a + b) (2 * b) ltac:(lia)).
  lia.
Qed.

(** X16. When check-in and check-out are a whole number of minutes apart,
    [calculateDuration] returns exactly that number and stores it: a
    check-out 60 minutes after the check-in gives 60. *)
Theorem calculateDuration_whole_minutes (a : Attendance.t)
    (checkIn minutes : Z) :
  Attendance.checkInTime a = Some checkIn ->
  Attendance.checkOutTime a = Some (checkIn + 60000 * minutes) ->
  fst (AttendanceDuration.calculateDuration a) = minutes /\
  Attendance.duration (snd (AttendanceDuration.calculateDuration a))
    = Some minutes.
Proof.
  intros Hi Ho. unfold AttendanceDuration.calculateDuration.
  rewrite Hi, Ho. cbn [fst snd Attendance.duration].
  assert (E : AttendanceDuration.roundDiv (checkIn + 60000 * minutes - checkIn)
                (1000 * 60) = minutes).
  { pose proof (roundDiv_bounds (checkIn + 60000 * minutes - checkIn)
                  (1000 * 60) ltac:(lia)).
    lia. }
  rewrite E. split; reflexivity.
Qed.

(** X17. With both timestamps present, [calculateDuration] returns the
    number of minutes nearest to the elapsed time, half a minute rounding
    up; it is negative exactly when the check-out precedes the check-in by
    more than half a minute. *)
Theorem calculateDuration_nearest_minute (a : Attendance.t)
    (checkIn checkOut : Z) :
  Attendance.checkInTime a = Some checkIn ->
  Attendance.checkOutTime a = Some checkOut ->
  let d := fst (AttendanceDuration.calculateDuration a) in
  60000 * d - 30000 <= checkOut - checkIn < 60000 * d + 30000 /\
  (d < 0 <-> checkOut - checkIn < - 30000).
Proof.
  intros Hi Ho. cbv zeta. unfold AttendanceDuration.calculateDuration.
  rewrite Hi, Ho. cbn [fst].
  pose proof (roundDiv_bounds (checkOut - checkIn) (1000 * 60) ltac:(lia)).
  lia.
Qed.

(** ** Error middleware: file uploads and stack traces *)

Lemma orElse_nonempty (v : option string) (d : string) :
  d <> "" -> Str.orElse v d <> "".
Proof.
  intros Hd. unfold Str.orElse. destruct v as [s|]; [|exact Hd].
  destruct (String.eqb_spec s ""); assumption.
Qed.

Lemma fileUploadMessage_nonempty (size : option string)
    (err : ErrorHandler.Err) (m : string) :
  ErrorHelpers.fileUploadMessage size err = Some m -> m <> "".
Proof.
  unfold ErrorHelpers.fileUploadMessage.
  destruct (ErrorHandler.codeIs err "LIMIT_FILE_SIZE");
    [intros E; injection E as <-; discriminate|].
  destruct (ErrorHandler.codeIs err "LIMIT_FILE_COUNT");
    [intros E; injection E as <-; discriminate|].
  destruct (ErrorHandler.codeIs err "LIMIT_UNEXPECTED_FILE");
    [intros E; injection E as <-; discriminate|].
  destruct (ErrorHandler.message err) as [msg|]; [|discriminate].
  destruct (Str.includes _ msg); intros E; injection E as <-; discriminate.
Qed.

Lemma fileUploadMessage_none (size : option string) (err : ErrorHandler.Err) :
  ErrorHelpers.fileUploadMessage size err = None <->
  ErrorHandler.codeIs err "LIMIT_FILE_SIZE" = false /\
  ErrorHandler.codeIs err "LIMIT_FILE_COUNT" = false /\
  ErrorHandler.codeIs err "LIMIT_UNEXPECTED_FILE" = false /\
  ErrorHandler.message err = None.
Proof.
  unfold ErrorHelpers.fileUploadMessage.
  destruct (ErrorHandler.codeIs err "LIMIT_FILE_SIZE");
    [split; [discriminate | intros (H & _); discriminate]|].
  destruct (ErrorHandler.codeIs err "LIMIT_FILE_COUNT");
    [split; [discriminate | intros (_ & H & _); discriminate]|].
  destruct (ErrorHandler.codeIs err "LIMIT_UNEXPECTED_FILE");
    [split; [discriminate | intros (_ & _ & H & _); discriminate]|].
  destruct (ErrorHandler.message err) as [m|].
  - destruct (Str.includes _ m);
      (split; [discriminate | intros (_ & _ & _ & H); discriminate]).
  - split; auto.
Qed.

(** X18. [handleFileUploadError] answers every error that carries one of
    the three Multer codes or a message, always with status 400 and
    success:false; it sends nothing (it throws) exactly for an error with
    none of these codes and no message. *)
Theorem handleFileUploadError_replies (size : option string)
    (err : ErrorHandler.Err) (c : JS.Clock) :
  let sent := JS.run (ErrorHelpers.handleFileUploadError size err) c in
  (sent = None <->
   ErrorHandler.codeIs err "LIMIT_FILE_SIZE" = false /\
   ErrorHandler.codeIs err "LIMIT_FILE_COUNT" = false /\
   ErrorHandler.codeIs err "LIMIT_UNEXPECTED_FILE" = false /\
   ErrorHandler.message err = None) /\
  (forall reply,
     sent = Some reply ->
     ErrorHelpers.code reply = 400 /\
     ErrorHelpers.success reply = false /\
     ErrorHelpers.text reply <> "").
Proof.
  cbv zeta. rewrite <- (fileUploadMessage_none size err).
  unfold ErrorHelpers.handleFileUploadError, JS.run.
  pose proof (fileUploadMessage_nonempty size err) as Hne.
  destruct (ErrorHelpers.fileUploadMessage size err) as [m|]; cbn.
  - split; [split; intros E; discriminate E|].
    intros reply E. injection E as <-. cbn.
    repeat split. apply Hne. reflexivity.
  - split; [split; reflexivity | discriminate].
Qed.

(** X19. [errorHandler] exposes the stack trace and the [details] object
    only when [NODE_ENV] is exactly ['development']; in every other mode,
    unset included, the response carries neither. *)
Theorem errorHandler_hides_stack (nodeEnv : option string)
    (err : ErrorHandler.Err) (req : ErrorHandler.Req) (c : JS.Clock)
    (resp : ErrorHandler.Response) :
  JS.run (ErrorHandler.errorHandler nodeEnv err req) c = Some resp ->
  (nodeEnv <> Some "development" ->
   ErrorHandler.bodyStack (ErrorHandler.json resp) = None /\
   ErrorHandler.details (ErrorHandler.json resp) = None) /\
  (nodeEnv = Some "development" ->
   ErrorHandler.bodyStack (ErrorHandler.json resp) = ErrorHandler.stack err /\
   ErrorHandler.details (ErrorHandler.json resp) <> None).
Proof.
  rewrite errorHandler_run.
  destruct (ErrorHandler.translate err) as [error|]; [|discriminate].
  intros E. injection E as <-. cbn. split.
  - intros Hn. destruct nodeEnv as [e|]; [|split; reflexivity].
    destruct (String.eqb_spec e "development") as [->|]; [contradiction|].
    split; reflexivity.
  - intros ->. cbn. split; [reflexivity | discriminate].
Qed.

(** ** Authentication middleware *)

Lemma split_no_separator (sep : ascii) (s : string) :
  ~ In sep (list_ascii_of_string s) -> Str.split sep s = [s].
Proof.
  induction s as [|ch s IH]; cbn; [reflexivity|].
  intros H. destruct (Ascii.eqb_spec ch sep) as [->|Hne].
  - exfalso. apply H. left. reflexivity.
  - rewrite IH; [reflexivity|]. intros Hin. apply H. right. exact Hin.
Qed.

Lemma split_at_separator (sep : ascii) (a b : string) :
  ~ In sep (list_ascii_of_string a) ->
  Str.split sep (a ++ String sep b) = a :: Str.split sep b.
Proof.
  induction a as [|ch a IH]; cbn.
  - intros _. rewrite Ascii.eqb_refl. reflexivity.
  - intros H. destruct (Ascii.eqb_spec ch sep) as [->|Hne].
    + exfalso. apply H. left. reflexivity.
    + rewrite IH; [reflexivity|]. intros Hin. apply H. right. exact Hin.
Qed.

(** X20. The token is what stands between the first and the second space
    of the header, whatever the scheme word before it: a header made of a
    scheme, one space and a non-empty token without spaces (as the client
    builds it, [Bearer <token>]) gives that token back, and a header
    without a space, or none at all, gives no token. *)
Theorem tokenOf_round_trip (scheme token : string) :
  ~ In " "%char (list_ascii_of_string scheme) ->
  ~ In " "%char (list_ascii_of_string token) ->
  token <> "" ->
  Auth.tokenOf (Some (scheme ++ " " ++ token)) = Some token /\
  Auth.tokenOf (Some scheme) = None /\
  Auth.tokenOf None = None.
Proof.
  intros Hs Ht Hne. split; [|split; [|reflexivity]].
  - unfold Auth.tokenOf.
    replace (JS.truthy (Some (scheme ++ " " ++ token))) with true
      by (destruct scheme; reflexivity).
    change (scheme ++ " " ++ token) with (scheme ++ String " " token).
    rewrite split_at_separator by exact Hs.
    rewrite split_no_separator by exact Ht. cbn.
    destruct (String.eqb_spec token ""); [contradiction | reflexivity].
  - unfold Auth.tokenOf. destruct (JS.truthy (Some scheme)); [|reflexivity].
    rewrite split_no_separator by exact Hs. reflexivity.
Qed.

Lemma onError_codes (error : ErrorHandler.Err) :
  fst (Auth.onError error) = 401 \/ fst (Auth.onError error) = 500.
Proof.
  unfold Auth.onError.
  destruct (ErrorHandler.name error =? "TokenExpiredError")%string; [auto|].
  destruct (ErrorHandler.name error =? "JsonWebTokenError")%string; auto.
Qed.

(** X21. [authenticateToken] lets a request through exactly when the header
    yields a token, the token verifies, the user it names exists and that
    user is active, and [req.user] is then that user; every refusal
    carries status 401, 403 or 500. *)
Theorem authenticateToken_next_iff
    (verify : string -> ErrorHandler.Err + option string)
    (findByPk : option string -> ErrorHandler.Err + option Auth.User)
    (authHeader : option string) :
  (forall user,
     Auth.authenticateToken verify findByPk authHeader = inl user <->
     exists token userId,
       Auth.tokenOf authHeader = Some token /\
       verify token = inr userId /\
       findByPk userId = inr (Some user) /\
       Auth.status user = "active") /\
  (forall code message,
     Auth.authenticateToken verify findByPk authHeader = inr (code, message) ->
     code = 401 \/ code = 403 \/ code = 500).
Proof.
  unfold Auth.authenticateToken. split.
  - intros user. split.
    + destruct (Auth.tokenOf authHeader) as [token|]; [|discriminate].
      destruct (verify token) as [e|uid] eqn:Ev; [discriminate|].
      destruct (findByPk uid) as [e|[u|]] eqn:Ef; try discriminate.
      destruct (String.eqb_spec (Auth.status u) "active") as [Ha|Ha];
        cbn; [|discriminate].
      intros E. injection E as <-. eauto 8.
    + intros (token & uid & -> & -> & -> & Ha). rewrite Ha. reflexivity.
  - intros code message.
    destruct (Auth.tokenOf authHeader) as [token|];
      [|intros E; injection E as <- _; auto].
    destruct (verify token) as [e|uid].
    { intros E. injection E as E. destruct (onError_codes e) as [H|H];
        rewrite E in H; cbn in H; auto. }
    destruct (findByPk uid) as [e|[u|]].
    + intros E. injection E as E. destruct (onError_codes e) as [H|H];
        rewrite E in H; cbn in H; auto.
    + destruct (negb _); intros E; [injection E as <- _; auto | discriminate].
    + intros E. injection E as <- _. auto.
Qed.

(** X22. For a JWT error (TokenExpiredError or JsonWebTokenError, without
    Multer code and rate-limit status) the authentication middleware and
    the global [errorHandler] give the same answer: the same status, 401,
    and the same message. *)
Theorem jwt_errors_answered_alike (nodeEnv : option string)
    (err : ErrorHandler.Err) (req : ErrorHandler.Req) (c : JS.Clock)
    (resp : ErrorHandler.Response) :
  ErrorHandler.name err = "TokenExpiredError" \/
  ErrorHandler.name err = "JsonWebTokenError" ->
  ErrorHandler.code err = None ->
  ErrorHandler.status err = None ->
  JS.run (ErrorHandler.errorHandler nodeEnv err req) c = Some resp ->
  (ErrorHandler.httpStatus resp,
   ErrorHandler.bodyMessage (ErrorHandler.json resp)) = Auth.onError err /\
  ErrorHandler.httpStatus resp = 401.
Proof.
  intros Hn Hc Hs. rewrite errorHandler_run.
  unfold ErrorHandler.translate, Auth.onError, ErrorHandler.codeIs,
    ErrorHandler.statusIs.
  rewrite Hc, Hs.
  destruct Hn as [-> | ->]; cbn; intros E; injection E as <-; cbn;
    split; reflexivity.
Qed.

Lemma includesRole_In (allowed : list string) (r : string) :
  Auth.includesRole allowed r = true <-> In r allowed.
Proof.
  unfold Auth.includesRole. rewrite existsb_exists. split.
  - intros (x & Hin & E). apply String.eqb_eq in E. subst. exact Hin.
  - intros Hin. exists r. split; [exact Hin | apply String.eqb_refl].
Qed.

(** X23. [requireRole] calls [next()] exactly for an authenticated user
    whose role is among the allowed ones; it answers 401 when there is no
    user and 403 otherwise.  A single role behaves as the one-element
    array, [requireAdmin] admits exactly the roles admin and super_admin,
    and a super admin is not let through [requireStudent] or
    [requireTutor]. *)
Theorem requireRole_next_iff (roles : Auth.Roles) (user : option Auth.User) :
  (Auth.requireRole roles user = Auth.Next <->
   exists u, user = Some u /\ In (Auth.role u) (Auth.allowedRoles roles)) /\
  (user = None ->
   Auth.requireRole roles user = Auth.Respond 401 "Authentication required") /\
  (forall u, user = Some u ->
             ~ In (Auth.role u) (Auth.allowedRoles roles) ->
             Auth.requireRole roles user
               = Auth.Respond 403 "Insufficient permissions") /\
  (forall r, Auth.requireRole (Auth.One r) user
               = Auth.requireRole (Auth.Many [r]) user) /\
  (Auth.requireAdmin user = Auth.Next <->
   exists u, user = Some u /\
             (Auth.role u = "admin" \/ Auth.role u = "super_admin")) /\
  (forall u, user = Some u -> Auth.role u = "super_admin" ->
             Auth.requireStudent user <> Auth.Next /\
             Auth.requireTutor user <> Auth.Next).
Proof.
  assert (Hnext : forall roles',
            Auth.requireRole roles' user = Auth.Next <->
            exists u, user = Some u /\
                      In (Auth.role u) (Auth.allowedRoles roles')).
  { intros roles'. unfold Auth.requireRole. destruct user as [u|].
    - destruct (Auth.includesRole (Auth.allowedRoles roles') (Auth.role u))
        eqn:E; cbn.
      + apply includesRole_In in E. split; [eauto | reflexivity].
      + split; [discriminate|]. intros (u' & Eu & Hin). injection Eu as <-.
        apply includesRole_In in Hin. congruence.
    - split; [discriminate | intros (u' & Eu & _); discriminate]. }
  split; [apply Hnext|]. split; [intros ->; reflexivity|].
  split; [|split; [reflexivity|split]].
  - intros u -> Hnot. unfold Auth.requireRole.
    destruct (Auth.includesRole (Auth.allowedRoles roles) (Auth.role u)) eqn:E;
      [apply includesRole_In in E; contradiction | reflexivity].
  - unfold Auth.requireAdmin. rewrite Hnext. cbn.
    split; intros (u & Eu & H); exists u; (split; [exact Eu|]).
    + destruct H as [H|[H|[]]]; auto.
    + destruct H as [H|H]; auto.
  - intros u -> Hr. unfold Auth.requireStudent, Auth.requireTutor.
    rewrite !Hnext. cbn.
    split; intros (u' & Eu & [H|[]]); injection Eu as <-;
      rewrite Hr in H; discriminate.
Qed.

(** ** Auth routes: registration role *)

Lemma endsWith_exclusive (a b s : string) :
  String.length a = String.length b -> a <> b ->
  Str.endsWith a s = true -> Str.endsWith b s = false.
Proof.
  unfold Str.endsWith. intros Hlen Hne Ha.
  apply andb_true_iff in Ha. destruct Ha as [_ Ha]. apply String.eqb_eq in Ha.
  apply andb_false_iff. right. rewrite <- Hlen, Ha.
  apply String.eqb_neq. exact Hne.
Qed.

(** X24. When the request names no role, the role comes from the e-mail
    domain: tutor exactly for an address ending in @tut.com, admin exactly
    for one ending in @adm.com, student for every other address; it is
    never super_admin.  A role named in the request is taken as it is. *)
Theorem assignRole_by_domain (role : option string) (email : string) :
  (JS.truthy role = false ->
   (AuthRoutes.assignRole role email = "tutor" <->
    Str.endsWith "@tut.com" email = true) /\
   (AuthRoutes.assignRole role email = "admin" <->
    Str.endsWith "@adm.com" email = true) /\
   (AuthRoutes.assignRole role email = "student" <->
    Str.endsWith "@tut.com" email = false /\
    Str.endsWith "@adm.com" email = false) /\
   AuthRoutes.assignRole role email <> "super_admin") /\
  (forall r, role = Some r -> r <> "" -> AuthRoutes.assignRole role email = r).
Proof.
  split.
  - intros Hr. unfold AuthRoutes.assignRole. rewrite Hr. cbn [negb].
    destruct (Str.endsWith "@std.com" email) eqn:Es.
    + rewrite (endsWith_exclusive "@std.com" "@tut.com" email eq_refl
                 ltac:(discriminate) Es).
      rewrite (endsWith_exclusive "@std.com" "@adm.com" email eq_refl
                 ltac:(discriminate) Es).
      repeat split; try discriminate; auto.
    + destruct (Str.endsWith "@tut.com" email) eqn:Et.
      * rewrite (endsWith_exclusive "@tut.com" "@adm.com" email eq_refl
                   ltac:(discriminate) Et).
        repeat split; try discriminate; auto.
        intros [H _]. discriminate.
      * destruct (Str.endsWith "@adm.com" email) eqn:Ea;
          repeat split; try discriminate; auto.
        intros [_ H]. discriminate.
  - intros r -> Hne. unfold AuthRoutes.assignRole, JS.truthy.
    destruct (String.eqb_spec r ""); [contradiction | reflexivity].
Qed.

(** ** Auth routes: password reset *)

Section PasswordReset.

Variable findByEmail : string -> list AuthRoutes.Account -> option AuthRoutes.Account.
Variable encode : AuthRoutes.Decoded -> option string.
Variable decode : string -> option AuthRoutes.Decoded.
Variables queryFails saveFails : bool.

Let forgot := AuthRoutes.forgotPassword findByEmail encode queryFails saveFails.
Let reset := AuthRoutes.resetPassword decode queryFails saveFails.

Lemma findByPk_id (id : string) (users : list AuthRoutes.Account)
    (u : AuthRoutes.Account) :
  AuthRoutes.findByPk id users = Some u -> AuthRoutes.accountId u = id.
Proof.
  unfold AuthRoutes.findByPk. intros H. apply find_some in H.
  destruct H as [_ H]. apply String.eqb_eq in H. exact H.
Qed.

Lemma findByPk_save (u u' : AuthRoutes.Account) (users : list AuthRoutes.Account) :
  AuthRoutes.findByPk (AuthRoutes.accountId u) users = Some u ->
  AuthRoutes.accountId u' = AuthRoutes.accountId u ->
  AuthRoutes.findByPk (AuthRoutes.accountId u) (AuthRoutes.save u' users)
    = Some u'.
Proof.
  unfold AuthRoutes.findByPk, AuthRoutes.save. intros H Hid. rewrite Hid.
  assert (Hsome : find (fun a => (AuthRoutes.accountId a
                                   =? AuthRoutes.accountId u)%string) users
                  <> None) by (rewrite H; discriminate).
  clear H. induction users as [|a users IH]; cbn in *; [contradiction|].
  destruct (String.eqb_spec (AuthRoutes.accountId a) (AuthRoutes.accountId u))
    as [E|E]; cbn.
  - rewrite Hid, String.eqb_refl. reflexivity.
  - destruct (String.eqb_spec (AuthRoutes.accountId a) (AuthRoutes.accountId u));
      [contradiction|].
    apply IH. exact Hsome.
Qed.

(** [jwt.verify] at work: the token must decode, and the second of the
    reading must lie before its [exp]. *)
Lemma verify_run (token : string) (c : JS.Clock) :
  JS.run (AuthRoutes.verify decode token) c =
  match decode token with
  | Some payload =>
      match AuthRoutes.exp payload with
      | Some e => if e <=? JS.reading c 0 / 1000 then None else Some payload
      | None => Some payload
      end
  | None => None
  end.
Proof.
  unfold AuthRoutes.verify, JS.run, JS.reading. cbn. rewrite Nat.add_0_r.
  reflexivity.
Qed.

Lemma verify_after (token : string) (c : JS.Clock) :
  JS.after (AuthRoutes.verify decode token) c =
  JS.mkClock (JS.timeline c) (S (JS.taken c)).
Proof. reflexivity. Qed.

Lemma verify_decodes (token : string) (c : JS.Clock) (d : AuthRoutes.Decoded) :
  JS.run (AuthRoutes.verify decode token) c = Some d -> decode token = Some d.
Proof.
  rewrite verify_run. destruct (decode token) as [p|]; [|discriminate].
  destruct (AuthRoutes.exp p) as [e|].
  - destruct (e <=? _); [discriminate | trivial].
  - trivial.
Qed.

Lemma signReset_run (id : string) (c : JS.Clock) :
  JS.run (AuthRoutes.signReset encode id) c =
  encode (AuthRoutes.mkDecoded id "password_reset"
            (Some (JS.reading c 0 / 1000 + 3600))).
Proof.
  unfold AuthRoutes.signReset, JS.run, JS.reading. cbn. rewrite Nat.add_0_r.
  reflexivity.
Qed.

Lemma signReset_after (id : string) (c : JS.Clock) :
  JS.after (AuthRoutes.signReset encode id) c =
  JS.mkClock (JS.timeline c) (S (JS.taken c)).
Proof. reflexivity. Qed.

Lemma reset_success (invalid : bool) (token pw : string)
    (users : list AuthRoutes.Account) (c : JS.Clock) :
  AuthRoutes.code (fst (JS.run (reset invalid token pw users) c)) = 200 ->
  exists d u,
    decode token = Some d /\
    AuthRoutes.type d = "password_reset" /\
    AuthRoutes.findByPk (AuthRoutes.userId d) users = Some u /\
    snd (JS.run (reset invalid token pw users) c) =
      AuthRoutes.save
        (AuthRoutes.mkAccount (AuthRoutes.accountId u)
           (AuthRoutes.accountEmail u) pw
           (Some (AuthRoutes.mkPreferences None None)))
        users.
Proof.
  clear forgot. unfold reset, AuthRoutes.resetPassword.
  destruct invalid; [discriminate|].
  rewrite run_bind.
  destruct (JS.run (AuthRoutes.verify decode token) c) as [d|] eqn:Ev;
    [|discriminate].
  apply verify_decodes in Ev.
  destruct (String.eqb_spec (AuthRoutes.type d) "password_reset") as [Et|Et];
    [|discriminate].
  cbn [negb].
  destruct queryFails; [discriminate|].
  destruct (AuthRoutes.findByPk (AuthRoutes.userId d) users) as [u|] eqn:Ef;
    [|discriminate].
  rewrite run_bind.
  destruct (JS.run (AuthRoutes.resetTokenRejected u token) _) eqn:Er;
    [discriminate|].
  destruct saveFails; [discriminate|].
  intros _. exists d, u. repeat split; try reflexivity; assumption.
Qed.

(** X25. A reset token works once: after [POST /reset-password] has
    answered 200 for a token, no later request with that token is answered
    200 on the table it left, whatever the new password and the time. *)
Theorem reset_token_single_use (invalid invalid' : bool)
    (token pw pw' : string) (users : list AuthRoutes.Account)
    (c c' : JS.Clock) :
  AuthRoutes.code (fst (JS.run (reset invalid token pw users) c)) = 200 ->
  let users' := snd (JS.run (reset invalid token pw users) c) in
  AuthRoutes.code (fst (JS.run (reset invalid' token pw' users') c')) <> 200.
Proof.
  clear forgot. intros H. cbv zeta.
  destruct (reset_success _ _ _ _ _ H) as (d & u & Hv & Ht & Hf & ->).
  pose proof (findByPk_id _ _ _ Hf) as Hid. rewrite <- Hid in Hf.
  unfold reset, AuthRoutes.resetPassword.
  destruct invalid'; [discriminate|].
  rewrite run_bind.
  destruct (JS.run (AuthRoutes.verify decode token) c') as [d'|] eqn:Ev;
    [|discriminate].
  apply verify_decodes in Ev. rewrite Hv in Ev. injection Ev as <-.
  rewrite Ht. cbn [String.eqb Ascii.eqb Bool.eqb negb].
  destruct queryFails; [discriminate|].
  rewrite <- Hid.
  rewrite (findByPk_save u
             (AuthRoutes.mkAccount (AuthRoutes.accountId u)
                (AuthRoutes.accountEmail u) pw
                (Some (AuthRoutes.mkPreferences None None)))
             users Hf eq_refl).
  discriminate.
Qed.

(** X26. [POST /forgot-password] gives nothing away: with valid input and
    storage and signing at work, the answer is the same 200 message for
    every e-mail address and every users table, whether an account exists
    or not. *)
Theorem forgotPassword_same_answer (email : string)
    (users : list AuthRoutes.Account) (c : JS.Clock) :
  queryFails = false ->
  saveFails = false ->
  (forall payload, encode payload <> None) ->
  fst (JS.run (forgot false email users) c) = AuthRoutes.genericAnswer.
Proof.
  intros Hq Hs Hsign. unfold forgot, AuthRoutes.forgotPassword.
  rewrite Hq, Hs.
  destruct (findByEmail email users) as [u|]; [|reflexivity].
  rewrite run_bind, signReset_run.
  match goal with
  | |- context [encode ?p] => specialize (Hsign p); destruct (encode p)
  end; [reflexivity | contradiction].
Qed.

(** X27. The reset round trip.  [POST /forgot-password] for an existing
    account signs a token that expires 3600 seconds after the second of
    signing and stores it with an expiry one hour after a later reading.
    [POST /reset-password] with that token sets the new password when
    [jwt.verify] reads a second before the token's expiry and the stored
    expiry has not passed; it is refused with 400, the table untouched,
    when either has.  One hour after the signing, to the millisecond, the
    token is refused. *)
Theorem forgot_then_reset (email token pw : string)
    (users : list AuthRoutes.Account) (u : AuthRoutes.Account)
    (c c' : JS.Clock) :
  let payload :=
    AuthRoutes.mkDecoded (AuthRoutes.accountId u) "password_reset"
                         (Some (JS.reading c 0 / 1000 + 3600)) in
  queryFails = false ->
  saveFails = false ->
  findByEmail email users = Some u ->
  AuthRoutes.findByPk (AuthRoutes.accountId u) users = Some u ->
  encode payload = Some token ->
  token <> "" ->
  decode token = Some payload ->
  let users' := snd (JS.run (forgot false email users) c) in
  let result := JS.run (reset false token pw users') c' in
  let refused :=
    fst result
      = AuthRoutes.mkAnswer 400 false "Invalid or expired reset token" /\
    snd result = users' in
  (JS.reading c' 0 / 1000 < JS.reading c 0 / 1000 + 3600 ->
   JS.reading c' 1 <= JS.reading c 1 + 3600000 ->
   AuthRoutes.code (fst result) = 200 /\
   exists u',
     AuthRoutes.findByPk (AuthRoutes.accountId u) (snd result) = Some u' /\
     AuthRoutes.password u' = pw /\
     AuthRoutes.accountEmail u' = AuthRoutes.accountEmail u) /\
  (JS.reading c 0 / 1000 + 3600 <= JS.reading c' 0 / 1000 -> refused) /\
  (JS.reading c 1 + 3600000 < JS.reading c' 1 -> refused) /\
  (JS.reading c 0 + 3600000 <= JS.reading c' 0 -> refused).
Proof.
  intros payload Hq Hs Hfind Hpk Hsign Hne Hdecode. cbv zeta.
  set (u1 := AuthRoutes.mkAccount (AuthRoutes.accountId u)
               (AuthRoutes.accountEmail u) (AuthRoutes.password u)
               (Some (AuthRoutes.mkPreferences (Some token)
                        (Some (JS.reading c 1 + 60 * 60 * 1000))))).
  assert (Hf : JS.run (forgot false email users) c =
               (AuthRoutes.genericAnswer, AuthRoutes.save u1 users)).
  { unfold forgot, AuthRoutes.forgotPassword.
    rewrite Hq, Hs, Hfind, run_bind, signReset_run, signReset_after.
    fold payload. rewrite Hsign. unfold u1, JS.run, JS.reading.
    cbn. rewrite Nat.add_1_r. reflexivity. }
  rewrite Hf. cbn [snd].
  assert (Hrej : forall k,
            JS.run (AuthRoutes.resetTokenRejected u1 token)
                   (JS.mkClock (JS.timeline k) (S (JS.taken k))) =
            (JS.reading c 1 + 3600000 <? JS.reading k 1)).
  { intros k.
    unfold AuthRoutes.resetTokenRejected, u1, JS.truthy, JS.run, JS.reading.
    cbn. rewrite !Nat.add_1_r, String.eqb_refl.
    destruct (String.eqb_spec token ""); [contradiction|]. reflexivity. }
  assert (Hrun : JS.run (reset false token pw (AuthRoutes.save u1 users)) c' =
            if JS.reading c 0 / 1000 + 3600 <=? JS.reading c' 0 / 1000
            then (AuthRoutes.mkAnswer 400 false "Invalid or expired reset token",
                  AuthRoutes.save u1 users)
            else if JS.reading c 1 + 3600000 <? JS.reading c' 1
            then (AuthRoutes.mkAnswer 400 false "Invalid or expired reset token",
                  AuthRoutes.save u1 users)
            else (AuthRoutes.mkAnswer 200 true "Password reset successful",
                  AuthRoutes.save
                    (AuthRoutes.mkAccount (AuthRoutes.accountId u)
                       (AuthRoutes.accountEmail u) pw
                       (Some (AuthRoutes.mkPreferences None None)))
                    (AuthRoutes.save u1 users))).
  { unfold reset, AuthRoutes.resetPassword.
    rewrite run_bind, verify_run, verify_after, Hdecode.
    cbn [AuthRoutes.exp payload].
    destruct (_ <=? _); [reflexivity|].
    cbn [AuthRoutes.type AuthRoutes.userId payload].
    rewrite String.eqb_refl. cbn [negb]. rewrite Hq.
    rewrite (findByPk_save u u1 users Hpk eq_refl).
    rewrite run_bind, Hrej.
    destruct (_ <? _); [reflexivity|]. rewrite Hs. reflexivity. }
  rewrite Hrun. clear Hrun.
  split; [|split; [|split]].
  - intros Hv Hn.
    replace (_ <=? _) with false by (symmetry; apply Z.leb_gt; lia).
    replace (_ <? _) with false by (symmetry; apply Z.ltb_ge; lia).
    split; [reflexivity|].
    eexists. split.
    + apply (findByPk_save u1
               (AuthRoutes.mkAccount (AuthRoutes.accountId u)
                  (AuthRoutes.accountEmail u) pw
                  (Some (AuthRoutes.mkPreferences None None)))
               (AuthRoutes.save u1 users)).
      * apply (findByPk_save u u1 users Hpk eq_refl).
      * reflexivity.
    + split; reflexivity.
  - intros Hv.
    replace (_ <=? _) with true by (symmetry; apply Z.leb_le; lia).
    split; reflexivity.
  - intros Hn. destruct (_ <=? _); [split; reflexivity|].
    replace (_ <? _) with true by (symmetry; apply Z.ltb_lt; lia).
    split; reflexivity.
  - intros Hv.
    assert (JS.reading c 0 / 1000 + 3600 <= JS.reading c' 0 / 1000).
    { replace (JS.reading c 0 / 1000 + 3600)
        with ((JS.reading c 0 + 3600 * 1000) / 1000)
        by (rewrite Z.div_add by lia; reflexivity).
      apply Z.div_le_mono; lia. }
    replace (_ <=? _) with true by (symmetry; apply Z.leb_le; lia).
    split; reflexivity.
Qed.

End PasswordReset.

(** ** Client: authentication context *)

Lemma request_keeps {A : Type} (x : AuthContext.Exchange A)
    (b : AuthContext.Browser) :
  AuthContext.state (snd (AuthContext.request x b)) = AuthContext.state b /\
  AuthContext.authorization (snd (AuthContext.request x b))
    = AuthContext.authorization b.
Proof.
  unfold AuthContext.request.
  destruct (AuthContext.first x); [split; reflexivity|].
  destruct (AuthContext.refreshes x b); [|split; reflexivity].
  destruct (AuthContext.refreshed x); [|split; reflexivity].
  destruct (AuthContext.retried x); split; reflexivity.
Qed.

(** What a request leaves in the storage, by the course it took. *)
Lemma request_storage {A : Type} (x : AuthContext.Exchange A)
    (b : AuthContext.Browser) (message : option string) :
  fst (AuthContext.request x b) = AuthContext.Failed message ->
  let b' := snd (AuthContext.request x b) in
  (AuthContext.refreshes x b = false ->
   AuthContext.storedToken b' = AuthContext.storedToken b /\
   AuthContext.storedRefreshToken b' = AuthContext.storedRefreshToken b /\
   AuthContext.location b' = AuthContext.location b) /\
  (AuthContext.refreshes x b = true ->
   forall t, AuthContext.refreshed x = AuthContext.Ok t ->
   AuthContext.storedToken b' = Some t /\
   AuthContext.storedRefreshToken b' = AuthContext.storedRefreshToken b /\
   AuthContext.location b' = AuthContext.location b) /\
  (AuthContext.refreshes x b = true ->
   forall status m, AuthContext.refreshed x = AuthContext.Error status m ->
   AuthContext.storedToken b' = None /\
   AuthContext.storedRefreshToken b' = None /\
   AuthContext.location b' = "/login").
Proof.
  cbv zeta. unfold AuthContext.request.
  destruct (AuthContext.first x) as [d|st0 m0]; [discriminate|].
  destruct (AuthContext.refreshes x b).
  - destruct (AuthContext.refreshed x) as [t|st1 m1].
    + destruct (AuthContext.retried x) as [d|st2 m2]; [discriminate|].
      intros _. split; [discriminate | split].
      * intros _ t' E. injection E as <-. repeat split.
      * intros _ status m E. discriminate E.
    + intros _. split; [discriminate | split].
      * intros _ t E. discriminate E.
      * intros _ status m _. repeat split.
  - intros _. split; [intros _; repeat split | split; discriminate].
Qed.

Lemma signIn_request (fallback : string)
    (x : AuthContext.Exchange AuthContext.Session) (b : AuthContext.Browser) :
  let b0 := AuthContext.dispatch
              [AuthContext.SET_LOADING true; AuthContext.CLEAR_ERROR] b in
  AuthContext.signIn fallback x b =
  match fst (AuthContext.request x b0) with
  | AuthContext.Succeeded s =>
      let b1 := snd (AuthContext.request x b0) in
      (AuthContext.dispatch
         [AuthContext.SET_TOKEN (Some (AuthContext.accessToken s));
          AuthContext.SET_USER (Some (AuthContext.sessionUser s))]
         (AuthContext.mkBrowser (AuthContext.state b1)
            (Some (AuthContext.accessToken s))
            (Some (AuthContext.refreshToken s))
            (Some ("Bearer " ++ AuthContext.accessToken s))
            (AuthContext.location b1)), None)
  | AuthContext.Failed message =>
      (AuthContext.dispatch
         [AuthContext.SET_ERROR (Some (Str.orElse message fallback))]
         (snd (AuthContext.request x b0)),
       Some (Str.orElse message fallback))
  end.
Proof.
  cbv zeta. unfold AuthContext.signIn.
  destruct (AuthContext.request x _) as [[s|message] b1]; reflexivity.
Qed.


(** X29. A failed [login] or [register] changes neither the user nor the
    token of the context, nor the default [Authorization] header: in the
    context, someone signed in stays signed in.  It ends loading and
    records a non-empty error message, the one of the error thrown or the
    route's fallback.  The stored tokens stay as they were when the
    response interceptor attempted no refresh; after a 401 with a refresh
    token stored, the [token] item holds the refreshed token, or both
    items are removed and the page is sent to [/login]. *)
Theorem sign_in_failure (fallback : string)
    (x : AuthContext.Exchange AuthContext.Session) (b : AuthContext.Browser)
    (m : string) :
  fallback <> "" ->
  snd (AuthContext.signIn fallback x b) = Some m ->
  let b' := fst (AuthContext.signIn fallback x b) in
  AuthContext.user (AuthContext.state b')
    = AuthContext.user (AuthContext.state b) /\
  AuthContext.token (AuthContext.state b')
    = AuthContext.token (AuthContext.state b) /\
  AuthContext.authorization b' = AuthContext.authorization b /\
  AuthContext.loading (AuthContext.state b') = false /\
  AuthContext.error (AuthContext.state b') = Some m /\
  m <> "" /\
  (exists message,
     fst (AuthContext.request x b) = AuthContext.Failed message /\
     m = Str.orElse message fallback) /\
  (AuthContext.refreshes x b = false ->
   AuthContext.storedToken b' = AuthContext.storedToken b /\
   AuthContext.storedRefreshToken b' = AuthContext.storedRefreshToken b /\
   AuthContext.location b' = AuthContext.location b) /\
  (AuthContext.refreshes x b = true ->
   forall t, AuthContext.refreshed x = AuthContext.Ok t ->
   AuthContext.storedToken b' = Some t /\
   AuthContext.storedRefreshToken b' = AuthContext.storedRefreshToken b /\
   AuthContext.location b' = AuthContext.location b) /\
  (AuthContext.refreshes x b = true ->
   forall status msg, AuthContext.refreshed x = AuthContext.Error status msg ->
   AuthContext.storedToken b' = None /\
   AuthContext.storedRefreshToken b' = None /\
   AuthContext.location b' = "/login").
Proof.
  intros Hf. cbv zeta. rewrite signIn_request. cbv zeta.
  set (b0 := AuthContext.dispatch _ b).
  assert (Hreq : fst (AuthContext.request x b) = fst (AuthContext.request x b0)).
  { unfold AuthContext.request.
    change (AuthContext.refreshes x b0) with (AuthContext.refreshes x b).
    destruct (AuthContext.first x); [reflexivity|].
    destruct (AuthContext.refreshes x b); [|reflexivity].
    destruct (AuthContext.refreshed x); [|reflexivity].
    destruct (AuthContext.retried x); reflexivity. }
  destruct (fst (AuthContext.request x b0)) as [s|message] eqn:E;
    [discriminate|].
  intros Em. cbn [snd] in Em. injection Em as <-. cbn [fst].
  destruct (request_storage x b0 message E) as (Hno & Hok & Herr).
  destruct (request_keeps x b0) as [Hst Hau].
  change (AuthContext.refreshes x b0) with (AuthContext.refreshes x b) in *.
  cbn [AuthContext.dispatch AuthContext.state AuthContext.storedToken
       AuthContext.storedRefreshToken AuthContext.authorization
       AuthContext.location fold_left AuthContext.authReducer
       AuthContext.token AuthContext.user AuthContext.loading
       AuthContext.error].
  rewrite Hst, Hau.
  repeat match goal with |- _ /\ _ => split end;
    try reflexivity.
  - apply orElse_nonempty. exact Hf.
  - exists message. split; [exact Hreq | reflexivity].
  - exact Hno.
  - exact Hok.
  - exact Herr.
Qed.

(** X30. Client and server agree on roles: for a signed-in user the
    client's [hasRole] allows exactly what the server's [requireRole]
    lets through for a user of the same role. *)
Theorem hasRole_agrees_with_requireRole (roles : Auth.Roles)
    (st : AuthContext.State) (u : AuthContext.Obj) (serverUser : Auth.User) :
  AuthContext.user st = Some u ->
  AuthContext.get "role" u = Some (Auth.role serverUser) ->
  (AuthContext.hasRole roles st = true <->
   Auth.requireRole roles (Some serverUser) = Auth.Next).
Proof.
  intros Hu Hr. unfold AuthContext.hasRole, Auth.requireRole.
  rewrite Hu, Hr.
  destruct (Auth.includesRole (Auth.allowedRoles roles) (Auth.role serverUser));
    cbn; split; try discriminate; reflexivity.
Qed.

(** ** More instances *)

Lemma findOverdue_isOverdue_witness :
  JS.run (Payment.isOverdue (PaymentFinders.payment MoreSamples.overdueRow))
         (Samples.hourly Samples.jan31_10h) = true.
Proof.
  apply (findOverdue_isOverdue [MoreSamples.failedRow; MoreSamples.overdueRow]
           (Samples.hourly Samples.jan31_10h) (Samples.hourly Samples.jan31_10h)).
  - discriminate.
  - vm_compute. left. reflexivity.
Defined.

Lemma findOverdue_skips_non_pending_witness :
  JS.run (Payment.isOverdue (PaymentFinders.payment MoreSamples.failedRow))
         (Samples.hourly Samples.jan31_10h) = true /\
  ~ In MoreSamples.failedRow
       (JS.run (PaymentFinders.findOverdue
                  [MoreSamples.failedRow; MoreSamples.overdueRow])
               (Samples.hourly Samples.jan31_10h)).
Proof.
  apply (findOverdue_skips_non_pending
           [MoreSamples.failedRow; MoreSamples.overdueRow]
           (Samples.hourly Samples.jan31_10h) MoreSamples.failedRow
           Samples.jan30_10h).
  - discriminate.
  - discriminate.
  - reflexivity.
  - reflexivity.
Defined.

Lemma getDaysOverdue_positive_iff_witness :
  0 <= JS.run (Payment.getDaysOverdue (Samples.pending (Some Samples.jan30_10h)))
              (Samples.hourly Samples.jan31_10h) /\
  (1 <= JS.run (Payment.getDaysOverdue (Samples.pending (Some Samples.jan30_10h)))
               (Samples.hourly Samples.jan31_10h) <->
   JS.run (Payment.isOverdue (Samples.pending (Some Samples.jan30_10h)))
          (Samples.hourly Samples.jan31_10h) = true).
Proof.
  apply (getDaysOverdue_positive_iff (Samples.pending (Some Samples.jan30_10h))
           (Samples.hourly Samples.jan31_10h)).
  discriminate.
Defined.

Lemma getDaysOverdue_monotone_witness :
  JS.run (Payment.getDaysOverdue (Samples.pending (Some Samples.jan30_10h)))
         (Samples.hourly Samples.jan30_10h)
  <= JS.run (Payment.getDaysOverdue (Samples.pending (Some Samples.jan30_10h)))
            (Samples.hourly Samples.jan31_10h).
Proof.
  apply (getDaysOverdue_monotone (Samples.pending (Some Samples.jan30_10h))
           (Samples.hourly Samples.jan30_10h) (Samples.hourly Samples.jan31_10h));
    discriminate.
Defined.

Lemma invoice_sequence_advances_witness :
  exists n,
    1 <= n /\
    Payment.invoiceNumber
      (JS.run (Payment.beforeCreate None [] (Samples.pending None))
              (Samples.hourly Samples.jan30_10h)) =
      Some (Invoice.text 2024 0 n) /\
    Payment.invoiceNumber
      (JS.run (Payment.beforeCreate None
                 [MoreSamples.storedAt Samples.jan30_10h] (Samples.pending None))
              (Samples.hourly (Samples.jan30_10h + 3600000))) =
      Some (Invoice.text 2024 0 (n + 1)).
Proof.
  apply (invoice_sequence_advances None []
           (MoreSamples.storedAt Samples.jan30_10h) (Samples.pending None)
           (Samples.pending None) (Samples.hourly Samples.jan30_10h)
           (Samples.hourly (Samples.jan30_10h + 3600000)) Samples.jan30_10h).
  - reflexivity.
  - reflexivity.
  - reflexivity.
  - reflexivity.
  - reflexivity.
  - vm_compute. split; discriminate.
Defined.

Lemma invoice_sequence_stalls_on_last_day_witness :
  Payment.invoiceNumber
    (JS.run (Payment.beforeCreate None
               [MoreSamples.storedAt Samples.jan31_10h] (Samples.pending None))
            (Samples.hourly (Samples.jan31_10h + 3600000))) =
  Payment.invoiceNumber
    (JS.run (Payment.beforeCreate None [] (Samples.pending None))
            (Samples.hourly Samples.jan31_10h)).
Proof.
  apply (invoice_sequence_stalls_on_last_day None []
           (MoreSamples.storedAt Samples.jan31_10h) (Samples.pending None)
           (Samples.pending None) (Samples.hourly Samples.jan31_10h)
           (Samples.hourly (Samples.jan31_10h + 3600000)) Samples.jan31_10h).
  - reflexivity.
  - reflexivity.
  - reflexivity.
  - reflexivity.
  - reflexivity.
  - reflexivity.
Defined.

Lemma invoice_matches_format_witness :
  exists inv,
    Payment.invoiceNumber
      (JS.run (Payment.beforeCreate (Some "dev")
                 [MoreSamples.storedAt Samples.jan30_10h] (Samples.pending None))
              (Samples.hourly Samples.jan31_10h)) = Some inv /\
    Invoice.matchesFormat inv = true.
Proof.
  apply (invoice_matches_format (Some "dev")
           [MoreSamples.storedAt Samples.jan30_10h] (Samples.pending None)
           (Samples.hourly Samples.jan31_10h)).
  - reflexivity.
  - vm_compute. split; discriminate.
  - vm_compute. discriminate.
Defined.

Lemma calculateDuration_whole_minutes_witness :
  fst (AttendanceDuration.calculateDuration MoreSamples.attended) = 60 /\
  Attendance.duration (snd (AttendanceDuration.calculateDuration MoreSamples.attended))
    = Some 60.
Proof.
  apply (calculateDuration_whole_minutes MoreSamples.attended
           Samples.jan30_10h 60); reflexivity.
Defined.

Lemma calculateDuration_nearest_minute_witness :
  let d := fst (AttendanceDuration.calculateDuration MoreSamples.attended) in
  60000 * d - 30000 <= Samples.jan30_10h + 60000 * 60 - Samples.jan30_10h
    < 60000 * d + 30000 /\
  (d < 0 <-> Samples.jan30_10h + 60000 * 60 - Samples.jan30_10h < - 30000).
Proof.
  apply (calculateDuration_nearest_minute MoreSamples.attended
           Samples.jan30_10h (Samples.jan30_10h + 60000 * 60)); reflexivity.
Defined.

Lemma errorHandler_hides_stack_witness :
  exists resp,
    JS.run (ErrorHandler.errorHandler (Some "production") Samples.castError
              Samples.req) (Samples.hourly Samples.jan30_10h) = Some resp /\
    ErrorHandler.bodyStack (ErrorHandler.json resp) = None /\
    ErrorHandler.details (ErrorHandler.json resp) = None.
Proof.
  eexists. split; [vm_compute; reflexivity|].
  eapply (proj1 (errorHandler_hides_stack (Some "production") Samples.castError
                   Samples.req (Samples.hourly Samples.jan30_10h) _ _)).
  discriminate.
  Unshelve. vm_compute. reflexivity.
Defined.

Lemma tokenOf_round_trip_witness :
  Auth.tokenOf (Some "Bearer abc.def.ghi") = Some "abc.def.ghi" /\
  Auth.tokenOf (Some "Bearer") = None /\
  Auth.tokenOf None = None.
Proof.
  apply (tokenOf_round_trip "Bearer" "abc.def.ghi").
  - cbn. intuition discriminate.
  - cbn. intuition discriminate.
  - discriminate.
Defined.

Lemma jwt_errors_answered_alike_witness :
  exists resp,
    JS.run (ErrorHandler.errorHandler None MoreSamples.expiredToken Samples.req)
           (Samples.hourly Samples.jan30_10h) = Some resp /\
    (ErrorHandler.httpStatus resp,
     ErrorHandler.bodyMessage (ErrorHandler.json resp))
      = Auth.onError MoreSamples.expiredToken /\
    ErrorHandler.httpStatus resp = 401.
Proof.
  eexists. split; [vm_compute; reflexivity|].
  apply (jwt_errors_answered_alike None MoreSamples.expiredToken Samples.req
           (Samples.hourly Samples.jan30_10h)).
  - left. reflexivity.
  - reflexivity.
  - reflexivity.
  - vm_compute. reflexivity.
Defined.

Lemma reset_token_single_use_witness :
  AuthRoutes.code
    (fst (JS.run
            (AuthRoutes.resetPassword MoreSamples.decode false false false
               "reset-user-1" "another"
               (snd (JS.run
                       (AuthRoutes.resetPassword MoreSamples.decode false false
                          false "reset-user-1" "new-secret"
                          [MoreSamples.accountWithToken])
                       (Samples.hourly Samples.jan30_10h))))
            (Samples.hourly Samples.jan30_10h))) <> 200.
Proof.
  apply (reset_token_single_use MoreSamples.decode false false false false
           "reset-user-1" "new-secret" "another"
           [MoreSamples.accountWithToken]
           (Samples.hourly Samples.jan30_10h) (Samples.hourly Samples.jan30_10h)).
  vm_compute. reflexivity.
Defined.

Lemma forgotPassword_same_answer_witness :
  fst (JS.run (AuthRoutes.forgotPassword MoreSamples.findByEmail
                 MoreSamples.encode false false false "nobody@std.com"
                 [MoreSamples.account])
              (Samples.hourly Samples.jan30_10h)) = AuthRoutes.genericAnswer.
Proof.
  apply (forgotPassword_same_answer MoreSamples.findByEmail MoreSamples.encode
           false false "nobody@std.com" [MoreSamples.account]
           (Samples.hourly Samples.jan30_10h)).
  - reflexivity.
  - reflexivity.
  - intros payload. discriminate.
Defined.

Lemma forgot_then_reset_witness :
  AuthRoutes.code
    (fst (JS.run
            (AuthRoutes.resetPassword MoreSamples.decode false false false
               "reset-user-1" "new-secret"
               (snd (JS.run
                       (AuthRoutes.forgotPassword MoreSamples.findByEmail
                          MoreSamples.encode false false false "ana@std.com"
                          [MoreSamples.account])
                       (Samples.frozen Samples.jan30_10h))))
            (Samples.frozen (Samples.jan30_10h + 1800000)))) = 200.
Proof.
  apply (proj1 (forgot_then_reset MoreSamples.findByEmail MoreSamples.encode
                  MoreSamples.decode false false "ana@std.com" "reset-user-1"
                  "new-secret" [MoreSamples.account] MoreSamples.account
                  (Samples.frozen Samples.jan30_10h)
                  (Samples.frozen (Samples.jan30_10h + 1800000))
                  eq_refl eq_refl eq_refl eq_refl eq_refl
                  ltac:(discriminate) eq_refl)).
  - vm_compute. reflexivity.
  - vm_compute. discriminate.
Defined.


Lemma sign_in_failure_witness :
  AuthContext.user
    (AuthContext.state
       (fst (AuthContext.login MoreSamples.wrongPassword MoreSamples.signedIn)))
    = AuthContext.user (AuthContext.state MoreSamples.signedIn) /\
  AuthContext.storedToken
    (fst (AuthContext.login MoreSamples.wrongPassword MoreSamples.signedIn))
    = Some "access-2".
Proof.
  pose proof (sign_in_failure "Login failed" MoreSamples.wrongPassword
                MoreSamples.signedIn "Invalid credentials"
                ltac:(discriminate) eq_refl) as H.
  cbv zeta in H.
  destruct H as (Hu & _ & _ & _ & _ & _ & _ & _ & Hok & _).
  split; [exact Hu | exact (proj1 (Hok eq_refl "access-2" eq_refl))].
Defined.

Lemma hasRole_agrees_with_requireRole_witness :
  AuthContext.hasRole (Auth.One "tutor")
    (AuthContext.state MoreSamples.signedIn) = true <->
  Auth.requireRole (Auth.One "tutor") (Some MoreSamples.tutor) = Auth.Next.
Proof.
  apply (hasRole_agrees_with_requireRole (Auth.One "tutor")
           (AuthContext.state MoreSamples.signedIn)
           [("id", "user-2"); ("role", "tutor")] MoreSamples.tutor);
    reflexivity.
Defined.
